(** * nextcloud_aio: the Login Flow v2 handshake and the group-folder catalog

    A shallow embedding of [nextcloud_aio/api/loginflow.py] and
    [nextcloud_aio/api/ocs/groupfolders.py].

    The two Python modules are thin clients: every method builds a request,
    hands it to a collaborator ([self.request] or [self.ocs_query]) and
    returns what comes back.  The only loop is the polling loop of
    [login_flow_wait_confirm].  The embedding keeps the effects explicit:

    - the wall clock ([datetime.now()]) is a microsecond counter in the
      state, advanced by requests and by [asyncio.sleep];
    - the collaborators are oracles of the environment ([World]): the k-th
      request gets the k-th answer and takes the k-th latency;
    - everything the code does to the outside is appended to a trace. *)

From Stdlib Require Import ZArith Lia Bool List DecimalString.
From stdpp Require Import base gmap sets list strings.
From Stdlib Require DecimalPos DecimalZ.

Open Scope Z_scope.

(** ** Values exchanged with the service *)

(** Python values that travel in request bodies and JSON answers.  A dict
    keeps its insertion order, hence the association list. *)
#[warnings="-register-all"]
Inductive JSON : Type :=
| JNull
| JBool (b : bool)
| JInt (z : Z)
| JStr (s : string)
| JList (l : list JSON)
| JDict (d : list (string * JSON)).

(** [str(n)] for a Python int, as used by f-string interpolation. *)
Definition str_of_int (n : Z) : string := NilZero.string_of_int (Z.to_int n).

(** Keyword arguments of [self.request(...)].  Arguments the caller leaves
    out are [None]. *)
Record Request : Type := mkRequest {
  req_method : string;
  req_url : string;
  req_headers : option (list (string * string));
  req_data : option (list (string * JSON))
}.

(** What [self.request] hands back: the status code and the outcome of
    calling [.json()] on the body ([None] when the body is not JSON). *)
Record Response : Type := mkResponse {
  status_code : Z;
  json : option JSON
}.

(** Keyword arguments of [self.ocs_query(...)]. *)
Record OcsQuery : Type := mkOcsQuery {
  ocs_method : string;
  ocs_sub : string;
  ocs_data : option (list (string * JSON))
}.

(** ** Exceptions and outcomes *)

Inductive exn : Type :=
| NextCloudLoginFlowTimeout (msg : string)
| JSONDecodeError
| CollaboratorError (what : string).

(** The result of running a coroutine to completion, or [OutOfFuel] when the
    given number of loop iterations was not enough. *)
Inductive outcome (A : Type) : Type :=
| Returned (a : A)
| Raised (e : exn)
| OutOfFuel.
Arguments Returned {A} a.
Arguments Raised {A} e.
Arguments OutOfFuel {A}.

(** ** The clock: [datetime] and [timedelta] *)

Definition US_PER_SECOND : Z := 1000000.
Definition SECONDS_PER_DAY : Z := 86400.
Definition US_PER_DAY : Z := SECONDS_PER_DAY * US_PER_SECOND.

(** A [datetime] is a number of microseconds on the wall clock. *)
Definition datetime : Type := Z.

(** A normalised [timedelta]: [0 <= seconds < 86400] and
    [0 <= microseconds < 10^6], the rest goes to [days] (which may be
    negative). *)
Record timedelta : Type := mkTimedelta {
  days : Z;
  seconds : Z;
  microseconds : Z
}.

(** [a - b] on datetimes.  Python's floor division and modulo are
    [Z.div] and [Z.modulo]. *)
Definition datetime_sub (a b : datetime) : timedelta :=
  let us := a - b in
  {| days := us / US_PER_DAY;
     seconds := (us mod US_PER_DAY) / US_PER_SECOND;
     microseconds := us mod US_PER_SECOND |}.

(** [timedelta.total_seconds()] in microseconds; not used by the code, it
    is what "elapsed time" means in the statements. *)
Definition total_microseconds (d : timedelta) : Z :=
  days d * US_PER_DAY + seconds d * US_PER_SECOND + microseconds d.

(** ** The environment and the state of a run *)

Inductive event : Type :=
| EvNow
| EvRequest (r : Request)
| EvSleep (secs : Z)
| EvOcsQuery (q : OcsQuery).

(** The collaborators.  The k-th call of [self.request] (counting from 0)
    is answered by [responses k], or fails with an exception, and takes
    [latency k] microseconds; the k-th [asyncio.sleep(d)] takes [d] seconds
    plus [oversleep k] microseconds; the k-th [self.ocs_query] yields
    [ocs_replies k]. *)
Record World : Type := mkWorld {
  responses : nat -> Response + exn;
  latency : nat -> Z;
  oversleep : nat -> Z;
  ocs_replies : nat -> JSON + exn
}.

Record State : Type := mkState {
  clock : datetime;
  nreq : nat;
  nsleep : nat;
  nocs : nat;
  trace : list event
}.

Definition init_state (t0 : datetime) : State :=
  {| clock := t0; nreq := 0; nsleep := 0; nocs := 0; trace := [] |}.

(** ** A state-and-exception monad for coroutines *)

Definition M (A : Type) : Type := State -> outcome A * State.

Definition ret {A} (a : A) : M A := fun s => (Returned a, s).

Definition raise {A} (e : exn) : M A := fun s => (Raised e, s).

Definition diverge {A} : M A := fun s => (OutOfFuel, s).

Definition bind {A B} (m : M A) (k : A -> M B) : M B :=
  fun s =>
    match m s with
    | (Returned a, s') => k a s'
    | (Raised e, s') => (Raised e, s')
    | (OutOfFuel, s') => (OutOfFuel, s')
    end.

Notation "x <- m ;; k" := (bind m (fun x => k))
  (at level 20, m at level 99, k at level 200, only parsing).

Definition of_sum {A} (x : A + exn) : M A :=
  match x with
  | inl a => ret a
  | inr e => raise e
  end.

(** [dt.datetime.now()] *)
Definition now : M datetime :=
  fun s =>
    (Returned (clock s),
     {| clock := clock s; nreq := nreq s; nsleep := nsleep s; nocs := nocs s;
        trace := trace s ++ [EvNow] |}).

(** [await self.request(...)] *)
Definition request (w : World) (r : Request) : M Response :=
  fun s =>
    of_sum (responses w (nreq s))
      {| clock := clock s + latency w (nreq s);
         nreq := S (nreq s); nsleep := nsleep s; nocs := nocs s;
         trace := trace s ++ [EvRequest r] |}.

(** [await asyncio.sleep(secs)] *)
Definition sleep (w : World) (secs : Z) : M unit :=
  fun s =>
    (Returned tt,
     {| clock := clock s + secs * US_PER_SECOND + oversleep w (nsleep s);
        nreq := nreq s; nsleep := S (nsleep s); nocs := nocs s;
        trace := trace s ++ [EvSleep secs] |}).

(** [await self.ocs_query(...)] *)
Definition ocs_query (w : World) (q : OcsQuery) : M JSON :=
  fun s =>
    of_sum (ocs_replies w (nocs s))
      {| clock := clock s; nreq := nreq s; nsleep := nsleep s;
         nocs := S (nocs s);
         trace := trace s ++ [EvOcsQuery q] |}.

(** [response.json()] *)
Definition response_json (r : Response) : M JSON :=
  match json r with
  | Some j => ret j
  | None => raise JSONDecodeError
  end.

(** ** loginflow.py *)

(** The object the methods are called on; only [self.endpoint] is read. *)
Record Client : Type := mkClient { endpoint : string }.

Module LoginFlowV2.
Section WithVersion.

(** [__VERSION__ = version('nextcloud_aio')], read from the installed
    package's metadata when the module is imported. *)
Variable __VERSION__ : string.

Variable w : World.
Variable self : Client.

Definition login_flow_initiate (user_agent : option string) : M JSON :=
  response <- request w
    {| req_method := "POST";
       req_url := endpoint self +:+ "/index.php/login/v2";
       req_headers := Some [("user-agent",
          match user_agent with
          | None => "nextcloud_aio/" +:+ __VERSION__
          | Some ua => ua
          end)];
       req_data := None |} ;;
  response_json response.

(** The request both poll sites send. *)
Definition poll_request (token : string) : Request :=
  {| req_method := "POST";
     req_url := endpoint self +:+ "/index.php/login/v2/poll";
     req_headers := None;
     req_data := Some [("token", JStr token)] |}.

Definition timeout_message : string :=
  "Login flow timed out.  You can try again.".

(** The [while] loop and the two statements after it.  [fuel] bounds the
    number of iterations; the loop variables are [response] and
    [running_time]. *)
Fixpoint wait_loop (token : string) (timeout : Z) (fuel : nat)
    (start_dt : datetime) (response : Response) (running_time : Z) : M JSON :=
  if (status_code response =? 404) && (running_time <? timeout) then
    match fuel with
    | O => diverge
    | S fuel' =>
        response' <- request w (poll_request token) ;;
        t <- now ;;
        let running_time' := seconds (datetime_sub t start_dt) in
        _slept <- sleep w 1 ;;
        wait_loop token timeout fuel' start_dt response' running_time'
    end
  else if status_code response =? 404 then
    raise (NextCloudLoginFlowTimeout timeout_message)
  else
    response_json response.

(** [timeout] is 60 when the caller leaves it out. *)
Definition login_flow_wait_confirm (token : string) (timeout : Z)
    (fuel : nat) : M JSON :=
  start_dt <- now ;;
  let running_time := 0 in
  response <- request w (poll_request token) ;;
  wait_loop token timeout fuel start_dt response running_time.

Definition destroy_login_token : M JSON :=
  ocs_query w
    {| ocs_method := "DELETE";
       ocs_sub := "/ocs/v2.php/core/apppassword";
       ocs_data := None |}.

End WithVersion.
End LoginFlowV2.

(** ** ocs/groupfolders.py *)

(** [class Permissions(IntFlag)].  An instance is an integer; the five
    members are the named ones, and [|] is the bitwise or of the values. *)
Module Permissions.

Record t : Type := mk { value : Z }.

Definition read : t := mk 1.
Definition update : t := mk 2.
Definition create : t := mk 4.
Definition delete : t := mk 8.
Definition share : t := mk 16.

(** [a | b] *)
Definition or (a b : t) : t := mk (Z.lor (value a) (value b)).

(** The names of the members, and the member each one denotes. *)
Inductive name : Type := Read | Update | Create | Delete | Share.

Definition member (n : name) : t :=
  match n with
  | Read => read
  | Update => update
  | Create => create
  | Delete => delete
  | Share => share
  end.

Definition all_names : list name := [Read; Update; Create; Delete; Share].

(** The position of a member's bit. *)
Definition bit (n : name) : nat :=
  match n with
  | Read => 0
  | Update => 1
  | Create => 2
  | Delete => 3
  | Share => 4
  end.

Definition name_of_bit (i : nat) : name :=
  match i with
  | 0 => Read
  | 1 => Update
  | 2 => Create
  | 3 => Delete
  | _ => Share
  end%nat.

#[global] Instance name_eq_dec : EqDecision name.
Proof. solve_decision. Defined.

#[global] Instance name_countable : Countable name.
Proof.
  apply (inj_countable' bit name_of_bit). intros []; reflexivity.
Defined.

(** [member in p], as [Flag.__contains__] computes it. *)
Definition contains (p : t) (n : name) : bool :=
  Z.land (value p) (value (member n)) =? value (member n).

(** The permission set an instance represents. *)
Definition members (p : t) : gset name :=
  list_to_set (List.filter (contains p) all_names).

(** [Permissions(0) | m1 | m2 | ...] for a list of member names. *)
Definition combine (l : list name) : t :=
  fold_right (fun n acc => or (member n) acc) (mk 0) l.

Definition sum_values (l : list name) : Z :=
  fold_right (fun n acc => value (member n) + acc) 0 l.

End Permissions.

Module GroupFolderManager.
Section WithWorld.

Variable w : World.

Definition get_all_group_folders : M JSON :=
  ocs_query w
    {| ocs_method := "GET";
       ocs_sub := "/apps/groupfolders/folders";
       ocs_data := None |}.

Definition create_group_folder (path : string) : M JSON :=
  ocs_query w
    {| ocs_method := "POST";
       ocs_sub := "/apps/groupfolders/folders";
       ocs_data := Some [("mountpoint", JStr path)] |}.

Definition get_group_folder (folder_id : Z) : M JSON :=
  ocs_query w
    {| ocs_method := "GET";
       ocs_sub := "/apps/groupfolders/folders/" +:+ str_of_int folder_id;
       ocs_data := None |}.

Definition remove_group_folder (folder_id : Z) : M JSON :=
  ocs_query w
    {| ocs_method := "DELETE";
       ocs_sub := "/apps/groupfolders/folders/" +:+ str_of_int folder_id;
       ocs_data := None |}.

Definition add_group_to_group_folder (group_id : string) (folder_id : Z)
    : M JSON :=
  ocs_query w
    {| ocs_method := "POST";
       ocs_sub := "/apps/groupfolders/folders/" +:+ str_of_int folder_id
                  +:+ "/groups";
       ocs_data := Some [("group", JStr group_id)] |}.

Definition remove_group_from_group_folder (group_id : string)
    (folder_id : Z) : M JSON :=
  ocs_query w
    {| ocs_method := "DELETE";
       ocs_sub := "/apps/groupfolders/folders/" +:+ str_of_int folder_id
                  +:+ "/groups/" +:+ group_id;
       ocs_data := None |}.

Definition __advanced_permissions (folder_id : Z) (enable : bool) : M JSON :=
  ocs_query w
    {| ocs_method := "POST";
       ocs_sub := "/apps/groupfolders/folders/" +:+ str_of_int folder_id
                  +:+ "/acl";
       ocs_data := Some [("acl", JInt (if enable then 1 else 0))] |}.

Definition enable_group_folder_advanced_permissions (folder_id : Z)
    : M JSON :=
  __advanced_permissions folder_id true.

Definition disable_group_folder_advanced_permissions (folder_id : Z)
    : M JSON :=
  __advanced_permissions folder_id false.

Definition __advanced_permissions_admin (folder_id : Z)
    (object_id object_type : string) (manage_acl : bool) : M JSON :=
  ocs_query w
    {| ocs_method := "POST";
       ocs_sub := "/apps/groupfolders/folders/" +:+ str_of_int folder_id
                  +:+ "/manageACL";
       ocs_data := Some [("mappingId", JStr object_id);
                         ("mappingType", JStr object_type);
                         ("manageAcl", JBool manage_acl)] |}.

Definition add_group_folder_advanced_permissions (folder_id : Z)
    (object_id object_type : string) : M JSON :=
  __advanced_permissions_admin folder_id object_id object_type true.

Definition remove_group_folder_advanced_permissions (folder_id : Z)
    (object_id object_type : string) : M JSON :=
  __advanced_permissions_admin folder_id object_id object_type false.

Definition set_group_folder_permissions (folder_id : Z) (group_id : string)
    (permissions : Permissions.t) : M JSON :=
  ocs_query w
    {| ocs_method := "POST";
       ocs_sub := "/apps/groupfolders/folders/" +:+ str_of_int folder_id
                  +:+ "/groups/" +:+ group_id;
       ocs_data := Some [("permissions",
                          JInt (Permissions.value permissions))] |}.

Definition set_group_folder_quota (folder_id : Z) (quota : Z) : M JSON :=
  ocs_query w
    {| ocs_method := "POST";
       ocs_sub := "/apps/groupfolders/folders/" +:+ str_of_int folder_id
                  +:+ "/quota";
       ocs_data := Some [("quota", JInt quota)] |}.

Definition rename_group_folder (folder_id : Z) (mountpoint : string)
    : M JSON :=
  ocs_query w
    {| ocs_method := "POST";
       ocs_sub := "/apps/groupfolders/folders/" +:+ str_of_int folder_id
                  +:+ "/mountpoint";
       ocs_data := Some [("mountpoint", JStr mountpoint)] |}.

End WithWorld.
End GroupFolderManager.

(** ** The catalog of section 4.2, as the spec tabulates it

    One constructor per row of the table, with the inputs the row
    interpolates.  [table_method], [table_path] and [table_body] are the
    three columns; paths are relative to [/apps/groupfolders]. *)
Inductive operation : Type :=
| ListFolders
| CreateFolder (mountpoint : string)
| GetFolder (id : Z)
| DeleteFolder (id : Z)
| GrantGroup (id : Z) (group : string)
| RevokeGroup (id : Z) (group : string)
| ToggleAcl (id : Z) (enable : bool)
| SetAclManager (id : Z) (mappingId mappingType : string) (manageAcl : bool)
| SetGroupPermissions (id : Z) (group : string) (permissions : Permissions.t)
| SetQuota (id : Z) (quota : Z)
| RenameFolder (id : Z) (mountpoint : string).

Definition table_method (op : operation) : string :=
  match op with
  | ListFolders | GetFolder _ => "GET"
  | DeleteFolder _ | RevokeGroup _ _ => "DELETE"
  | _ => "POST"
  end.

Definition table_path (op : operation) : string :=
  match op with
  | ListFolders | CreateFolder _ => "/folders"
  | GetFolder id | DeleteFolder id => "/folders/" +:+ str_of_int id
  | GrantGroup id _ => "/folders/" +:+ str_of_int id +:+ "/groups"
  | RevokeGroup id group | SetGroupPermissions id group _ =>
      "/folders/" +:+ str_of_int id +:+ "/groups/" +:+ group
  | ToggleAcl id _ => "/folders/" +:+ str_of_int id +:+ "/acl"
  | SetAclManager id _ _ _ => "/folders/" +:+ str_of_int id +:+ "/manageACL"
  | SetQuota id _ => "/folders/" +:+ str_of_int id +:+ "/quota"
  | RenameFolder id _ => "/folders/" +:+ str_of_int id +:+ "/mountpoint"
  end.

Definition table_body (op : operation) : option (list (string * JSON)) :=
  match op with
  | ListFolders | GetFolder _ | DeleteFolder _ | RevokeGroup _ _ => None
  | CreateFolder mountpoint | RenameFolder _ mountpoint =>
      Some [("mountpoint", JStr mountpoint)]
  | GrantGroup _ group => Some [("group", JStr group)]
  | ToggleAcl _ enable => Some [("acl", JInt (if enable then 1 else 0))]
  | SetAclManager _ mappingId mappingType manageAcl =>
      Some [("mappingId", JStr mappingId);
            ("mappingType", JStr mappingType);
            ("manageAcl", JBool manageAcl)]
  | SetGroupPermissions _ _ permissions =>
      Some [("permissions", JInt (Permissions.value permissions))]
  | SetQuota _ quota => Some [("quota", JInt quota)]
  end.

(** The method of [GroupFolderManager] that carries out a row. *)
Definition call (w : World) (op : operation) : M JSON :=
  match op with
  | ListFolders => GroupFolderManager.get_all_group_folders w
  | CreateFolder path => GroupFolderManager.create_group_folder w path
  | GetFolder id => GroupFolderManager.get_group_folder w id
  | DeleteFolder id => GroupFolderManager.remove_group_folder w id
  | GrantGroup id group =>
      GroupFolderManager.add_group_to_group_folder w group id
  | RevokeGroup id group =>
      GroupFolderManager.remove_group_from_group_folder w group id
  | ToggleAcl id true =>
      GroupFolderManager.enable_group_folder_advanced_permissions w id
  | ToggleAcl id false =>
      GroupFolderManager.disable_group_folder_advanced_permissions w id
  | SetAclManager id object_id object_type true =>
      GroupFolderManager.add_group_folder_advanced_permissions w id
        object_id object_type
  | SetAclManager id object_id object_type false =>
      GroupFolderManager.remove_group_folder_advanced_permissions w id
        object_id object_type
  | SetGroupPermissions id group permissions =>
      GroupFolderManager.set_group_folder_permissions w id group permissions
  | SetQuota id quota => GroupFolderManager.set_group_folder_quota w id quota
  | RenameFolder id mountpoint =>
      GroupFolderManager.rename_group_folder w id mountpoint
  end.

(** Coroutine [m] does one thing: it hands [q] to [self.ocs_query] and
    ends with what that yields. *)
Definition issues_exactly (w : World) (m : M JSON) (q : OcsQuery) : Prop :=
  forall s,
    m s =
    of_sum (ocs_replies w (nocs s))
      {| clock := clock s; nreq := nreq s; nsleep := nsleep s;
         nocs := S (nocs s);
         trace := trace s ++ [EvOcsQuery q] |}.

(** ** The timeline of a run that stays pending

    Closed forms for what the polling loop sees while every poll so far was
    answered and the loop went on.  They are connected to the code by
    [wait_loop_step] and [pending_run] below. *)
Section Timeline.

Variable w : World.

(** Microseconds from the start of the run to the moment poll [k]
    (counting from 0) is issued: polls 0 and 1 follow each other at once,
    every later one comes after a one-second sleep. *)
Fixpoint poll_offset (k : nat) : Z :=
  match k with
  | O => 0
  | S k' =>
      poll_offset k' + latency w k' +
      match k' with
      | O => 0
      | S k'' => 1 * US_PER_SECOND + oversleep w k''
      end
  end.

(** Microseconds from the start to the clock reading of loop iteration
    [k] (from 0), taken when poll [k + 1] has been answered. *)
Definition reading_offset (k : nat) : Z :=
  poll_offset (S k) + latency w (S k).

(** [running_time] when the loop condition is evaluated for the k-th
    time (from 0). *)
Definition running_time_at (k : nat) : Z :=
  match k with
  | O => 0
  | S j => seconds (datetime_sub (reading_offset j) 0)
  end.

(** Poll [k] was answered with a 404 and the loop condition held after
    it. *)
Definition pending (timeout : Z) (k : nat) : Prop :=
  exists r, responses w k = inl r /\ status_code r = 404 /\
            running_time_at k < timeout.

Variable self : Client.
Variable token : string.

(** The trace when the loop condition is evaluated for the k-th time. *)
Fixpoint loop_trace (k : nat) : list event :=
  match k with
  | O => [EvNow; EvRequest (LoginFlowV2.poll_request self token)]
  | S k' =>
      loop_trace k' ++
      [EvRequest (LoginFlowV2.poll_request self token); EvNow; EvSleep 1]
  end.

(** The state when the loop condition is evaluated for the k-th time, in
    a run started at [init_state t0]. *)
Definition loop_state (t0 : datetime) (k : nat) : State :=
  {| clock := t0 + poll_offset (S k);
     nreq := S k; nsleep := k; nocs := 0;
     trace := loop_trace k |}.

End Timeline.

(** ** Environments used in the examples *)

Definition pending_response : Response :=
  {| status_code := 404; json := None |}.

Definition no_ocs : nat -> JSON + exn := fun _ => inl JNull.

(** Instant answers, exact one-second sleeps, never confirmed. *)
Definition ideal_world : World :=
  {| responses := fun _ => inl pending_response;
     latency := fun _ => 0;
     oversleep := fun _ => 0;
     ocs_replies := no_ocs |}.

(** Never confirmed, and every request takes five seconds. *)
Definition slow_world : World :=
  {| responses := fun _ => inl pending_response;
     latency := fun _ => 5 * US_PER_SECOND;
     oversleep := fun _ => 0;
     ocs_replies := no_ocs |}.

Definition example_client : Client :=
  {| endpoint := "https://cloud.example.com" |}.

(** The spec's scenario: two pending answers, then the credential. *)
Definition app_credential : JSON :=
  JDict [("appPassword", JStr "p"); ("loginName", JStr "u")].

Definition scenario_world : World :=
  {| responses := fun k =>
       if (k <? 2)%nat then inl pending_response
       else inl {| status_code := 200; json := Some app_credential |};
     latency := fun _ => 0;
     oversleep := fun _ => 0;
     ocs_replies := no_ocs |}.

(** The first poll is answered with a server error that has a JSON
    body. *)
Definition error_body : JSON :=
  JDict [("message", JStr "Internal Server Error")].

Definition failing_world : World :=
  {| responses := fun _ =>
       inl {| status_code := 500; json := Some error_body |};
     latency := fun _ => 0;
     oversleep := fun _ => 0;
     ocs_replies := no_ocs |}.

(** One pending answer, then the credential after five seconds. *)
Definition late_world : World :=
  {| responses := fun k =>
       if (k <? 1)%nat then inl pending_response
       else inl {| status_code := 200; json := Some app_credential |};
     latency := fun k => if (k <? 1)%nat then 0 else 5 * US_PER_SECOND;
     oversleep := fun _ => 0;
     ocs_replies := no_ocs |}.

(** Confirmed before the first poll. *)
Definition immediate_world : World :=
  {| responses := fun _ =>
       inl {| status_code := 200; json := Some app_credential |};
     latency := fun _ => 0;
     oversleep := fun _ => 0;
     ocs_replies := no_ocs |}.

(** ** Reading a trace *)

Definition is_request (e : event) : bool :=
  match e with EvRequest _ => true | _ => false end.

Definition is_sleep (e : event) : bool :=
  match e with EvSleep _ => true | _ => false end.

Definition count_requests (tr : list event) : nat :=
  length (List.filter is_request tr).

Definition count_sleeps (tr : list event) : nat :=
  length (List.filter is_sleep tr).

(** ** What a finished run says about its last answer *)

(** The run ended with outcome [out] in state [s]: it has sent a request,
    and if the last one was answered, a 404 there means the timeout
    exception and anything else means [response.json()] of that answer. *)
Definition last_answer_decides (w : World) (out : outcome JSON) (s : State)
    : Prop :=
  (1 <= nreq s)%nat /\
  forall r, responses w (pred (nreq s)) = inl r ->
    (status_code r = 404 <->
     out = Raised (NextCloudLoginFlowTimeout LoginFlowV2.timeout_message)) /\
    (status_code r <> 404 -> (out, s) = response_json r s).

(** Two pending answers, then the connection breaks. *)
Definition broken_world : World :=
  {| responses := fun k =>
       if (k <? 2)%nat then inl pending_response
       else inr (CollaboratorError "connection reset");
     latency := fun _ => 0;
     oversleep := fun _ => 0;
     ocs_replies := no_ocs |}.

(** The character ["/"] (code 47). *)
Definition slash : Ascii.ascii :=
  Ascii.Ascii true true true true false true false false.

(** No ["/"] in the string. *)
Fixpoint slash_free (s : string) : bool :=
  match s with
  | EmptyString => true
  | String c s' => negb (Ascii.eqb c slash) && slash_free s'
  end.

(** The query a row of the table stands for. *)
Definition wire_query (op : operation) : OcsQuery :=
  {| ocs_method := table_method op;
     ocs_sub := "/apps/groupfolders" +:+ table_path op;
     ocs_data := table_body op |}.

(** One pending answer, then a server error with a JSON body. *)
Definition pending_then_error_world : World :=
  {| responses := fun k =>
       if (k <? 1)%nat then inl pending_response
       else inl {| status_code := 500; json := Some error_body |};
     latency := fun _ => 0;
     oversleep := fun _ => 0;
     ocs_replies := no_ocs |}.

(** What one iteration of the loop adds to the trace: the poll, then the
    clock reading, then the sleep. *)
Definition poll_block (self : Client) (token : string) : list event :=
  [EvRequest (LoginFlowV2.poll_request self token); EvNow; EvSleep 1].

(** ** Vocabulary for the further properties *)

(** The only things [login_flow_wait_confirm] does to the outside: read
    the clock, send the poll request, sleep for one second. *)
Definition poll_event (self : Client) (token : string) (e : event) : Prop :=
  e = EvNow \/ e = EvRequest (LoginFlowV2.poll_request self token) \/
  e = EvSleep 1.

(** The counters of a state agree with its trace, which holds poll events
    only. *)
Definition poll_state (self : Client) (token : string) (s : State) : Prop :=
  Forall (poll_event self token) (trace s) /\
  count_requests (trace s) = nreq s /\
  count_sleeps (trace s) = nsleep s.

(** [pending], as a test. *)
Definition pendingb (w : World) (timeout : Z) (k : nat) : bool :=
  match responses w k with
  | inl r => (status_code r =? 404) && (running_time_at w k <? timeout)
  | inr _ => false
  end.

(** The environment as a coroutine sees it when it starts in state [s]:
    the answers, latencies and overruns still to come. *)
Definition shift_world (w : World) (s : State) : World :=
  {| responses := fun k => responses w (nreq s + k);
     latency := fun k => latency w (nreq s + k);
     oversleep := fun k => oversleep w (nsleep s + k);
     ocs_replies := fun k => ocs_replies w (nocs s + k) |}.

(** State [s'] of a run counted from scratch, put back after [s]. *)
Definition rebase (s s' : State) : State :=
  {| clock := clock s';
     nreq := nreq s + nreq s';
     nsleep := nsleep s + nsleep s';
     nocs := nocs s + nocs s';
     trace := trace s ++ trace s' |}.

(** * Properties *)

(** ** The clock *)

Lemma seconds_range (a b : datetime) :
  0 <= seconds (datetime_sub a b) < SECONDS_PER_DAY.
Proof.
  unfold datetime_sub, US_PER_DAY, SECONDS_PER_DAY, US_PER_SECOND; simpl.
  pose proof (Z.mod_pos_bound (a - b) (86400 * 1000000) ltac:(lia)) as Hm.
  split.
  - apply Z.div_pos; lia.
  - apply Z.div_lt_upper_bound; lia.
Qed.

Lemma seconds_shift (t0 d : Z) :
  seconds (datetime_sub (t0 + d) t0) = seconds (datetime_sub d 0).
Proof. unfold datetime_sub; simpl. f_equal. f_equal. lia. Qed.

(** Within the first day the reading is the elapsed time, truncated. *)
Lemma seconds_first_day (d : Z) :
  0 <= d < US_PER_DAY ->
  seconds (datetime_sub d 0) = d / US_PER_SECOND.
Proof.
  intros Hd. unfold datetime_sub; simpl.
  rewrite Z.sub_0_r, Z.mod_small by exact Hd. reflexivity.
Qed.

(** The reading never runs ahead of the elapsed time. *)
Lemma seconds_le_elapsed (d : Z) :
  0 <= d -> seconds (datetime_sub d 0) * US_PER_SECOND <= d.
Proof.
  intros Hd. unfold datetime_sub; simpl. rewrite Z.sub_0_r.
  unfold US_PER_DAY, SECONDS_PER_DAY, US_PER_SECOND.
  pose proof (Z.mod_le d (86400 * 1000000) Hd ltac:(lia)) as Hle.
  pose proof (Z.mod_pos_bound d (86400 * 1000000) ltac:(lia)) as Hm.
  pose proof (Z.mul_div_le (d mod (86400 * 1000000)) 1000000 ltac:(lia)).
  lia.
Qed.

Lemma seconds_exact (d k : Z) :
  0 <= k < SECONDS_PER_DAY ->
  k * US_PER_SECOND <= d < (k + 1) * US_PER_SECOND ->
  seconds (datetime_sub d 0) = k.
Proof.
  unfold SECONDS_PER_DAY, US_PER_SECOND. intros Hk Hd.
  rewrite seconds_first_day by (unfold US_PER_DAY, SECONDS_PER_DAY, US_PER_SECOND; nia).
  unfold US_PER_SECOND. symmetry. apply Z.div_unique with (r := d - k * 1000000); lia.
Qed.

(** ** The polling loop, one iteration at a time *)

Section Loop.

Variable w : World.
Variable self : Client.
Variable token : string.
Variable timeout : Z.

Let loop := LoginFlowV2.wait_loop w self token timeout.
Let run := LoginFlowV2.login_flow_wait_confirm w self token timeout.

(** The loop is left at once when the condition fails. *)
Lemma wait_loop_exit fuel start_dt r rt s :
  (status_code r =? 404) && (rt <? timeout) = false ->
  loop fuel start_dt r rt s =
  if status_code r =? 404
  then (Raised (NextCloudLoginFlowTimeout LoginFlowV2.timeout_message), s)
  else response_json r s.
Proof.
  intros Hc. unfold loop.
  destruct fuel; cbn [LoginFlowV2.wait_loop]; rewrite Hc;
    destruct (status_code r =? 404); reflexivity.
Qed.

(** One iteration from the k-th evaluation of the condition to the
    next. *)
Lemma wait_loop_step fuel t0 k r r' :
  status_code r = 404 ->
  running_time_at w k < timeout ->
  responses w (S k) = inl r' ->
  loop (S fuel) t0 r (running_time_at w k) (loop_state w self token t0 k) =
  loop fuel t0 r' (running_time_at w (S k))
    (loop_state w self token t0 (S k)).
Proof.
  intros H404 Hrt Hr'. unfold loop. cbn [LoginFlowV2.wait_loop].
  apply Z.eqb_eq in H404 as ->. apply Z.ltb_lt in Hrt as ->.
  cbn [andb]. unfold bind, request, now, sleep, loop_state.
  cbn [nreq nsleep clock trace nocs]. rewrite Hr'.
  cbn [of_sum ret nreq nsleep clock trace nocs].
  f_equal.
  - unfold running_time_at, reading_offset.
    rewrite <- seconds_shift with (t0 := t0). f_equal. f_equal.
    cbn [clock poll_offset]. lia.
  - f_equal.
    + cbn [poll_offset]. lia.
    + cbn [loop_trace]. rewrite <- !app_assoc. reflexivity.
Qed.

(** While the run stays pending, [k] iterations take the loop from its
    first evaluation of the condition to the k-th. *)
Lemma pending_loop t0 r0 k :
  responses w 0%nat = inl r0 ->
  (forall j, (j < k)%nat -> pending w timeout j) ->
  forall rk, responses w k = inl rk ->
  forall fuel,
    loop (k + fuel) t0 r0 0 (loop_state w self token t0 0) =
    loop fuel t0 rk (running_time_at w k) (loop_state w self token t0 k).
Proof.
  intros Hr0. induction k as [|k IH]; intros Hpend rk Hrk fuel.
  - rewrite Hr0 in Hrk. injection Hrk as <-. reflexivity.
  - destruct (Hpend k ltac:(lia)) as (r & Hr & H404 & Hrt).
    replace (S k + fuel)%nat with (k + S fuel)%nat by lia.
    rewrite (IH ltac:(intros; apply Hpend; lia) r Hr (S fuel)).
    apply wait_loop_step; assumption.
Qed.

(** The two statements before the loop. *)
Lemma run_enters_loop fuel t0 r0 :
  responses w 0%nat = inl r0 ->
  run fuel (init_state t0) =
  loop fuel t0 r0 0 (loop_state w self token t0 0).
Proof.
  intros Hr0. unfold run, loop, LoginFlowV2.login_flow_wait_confirm.
  unfold bind, now, request, init_state, loop_state.
  cbn [nreq nsleep clock trace nocs]. rewrite Hr0. cbn [of_sum ret].
  f_equal. f_equal. cbn [poll_offset]. lia.
Qed.

Lemma pending_run t0 k :
  (forall j, (j < k)%nat -> pending w timeout j) ->
  forall rk, responses w k = inl rk ->
  forall fuel,
    run (k + fuel) (init_state t0) =
    loop fuel t0 rk (running_time_at w k) (loop_state w self token t0 k).
Proof.
  intros Hpend rk Hrk fuel.
  assert (exists r0, responses w 0%nat = inl r0) as [r0 Hr0].
  { destruct k as [|k]; [eauto|].
    destruct (Hpend 0%nat ltac:(lia)) as (r & Hr & _). eauto. }
  rewrite (run_enters_loop _ _ r0 Hr0).
  apply pending_loop; assumption.
Qed.

(** A run that stays pending for [k] polls is still running after [k]
    iterations' worth of fuel. *)
Lemma pending_out_of_fuel t0 k :
  (forall j, (j <= k)%nat -> pending w timeout j) ->
  fst (run k (init_state t0)) = OutOfFuel.
Proof.
  intros Hpend.
  destruct (Hpend k ltac:(lia)) as (r & Hr & H404 & Hrt).
  replace k with (k + 0)%nat at 1 by lia.
  rewrite (pending_run t0 k ltac:(intros; apply Hpend; lia) r Hr 0%nat).
  unfold loop. cbn [LoginFlowV2.wait_loop].
  apply Z.eqb_eq in H404 as ->. apply Z.ltb_lt in Hrt as ->. reflexivity.
Qed.

(** The body of the loop: the poll, then the clock reading that sets
    [running_time], then the one-second sleep, and only then the condition
    again.  An exception of the transport leaves the loop. *)
Lemma wait_loop_continue fuel start_dt r rt s :
  (status_code r =? 404) && (rt <? timeout) = true ->
  loop (S fuel) start_dt r rt s =
  match responses w (nreq s) with
  | inl r' =>
      loop fuel start_dt r'
        (seconds (datetime_sub (clock s + latency w (nreq s)) start_dt))
        {| clock := clock s + latency w (nreq s) + 1 * US_PER_SECOND
                    + oversleep w (nsleep s);
           nreq := S (nreq s); nsleep := S (nsleep s); nocs := nocs s;
           trace := trace s ++
                    [EvRequest (LoginFlowV2.poll_request self token);
                     EvNow; EvSleep 1] |}
  | inr e =>
      (Raised e,
       {| clock := clock s + latency w (nreq s);
          nreq := S (nreq s); nsleep := nsleep s; nocs := nocs s;
          trace := trace s ++
                   [EvRequest (LoginFlowV2.poll_request self token)] |})
  end.
Proof.
  intros Hcond. unfold loop.
  change (LoginFlowV2.wait_loop w self token timeout (S fuel) start_dt r rt s)
    with ((if (status_code r =? 404) && (rt <? timeout)
           then bind (request w (LoginFlowV2.poll_request self token))
                  (fun r' => bind now (fun t =>
                     bind (sleep w 1) (fun _ =>
                       LoginFlowV2.wait_loop w self token timeout fuel
                         start_dt r' (seconds (datetime_sub t start_dt)))))
           else if status_code r =? 404
                then raise (NextCloudLoginFlowTimeout
                              LoginFlowV2.timeout_message)
                else response_json r) s).
  rewrite Hcond. unfold bind at 1. unfold request at 1.
  destruct (responses w (nreq s)) as [r'|e]; cbn [of_sum ret raise];
    [|reflexivity].
  unfold bind, now, sleep. cbn [nreq nsleep clock trace nocs].
  rewrite <- !app_assoc. reflexivity.
Qed.

(** More fuel does not change the outcome of a loop that has ended. *)
Lemma wait_loop_more_fuel fuel :
  forall start_dt r rt s out s',
    loop fuel start_dt r rt s = (out, s') ->
    out <> OutOfFuel ->
    loop (S fuel) start_dt r rt s = (out, s').
Proof.
  induction fuel as [|fuel IH]; intros start_dt r rt s out s' Hrun Hout.
  all: destruct ((status_code r =? 404) && (rt <? timeout)) eqn:Hcond;
    [|rewrite wait_loop_exit in * by exact Hcond; exact Hrun].
  - unfold loop in Hrun. cbn [LoginFlowV2.wait_loop] in Hrun.
    rewrite Hcond in Hrun. injection Hrun as <- <-. congruence.
  - rewrite wait_loop_continue in * by exact Hcond.
    destruct (responses w (nreq s)) as [r'|e]; [|exact Hrun].
    apply IH; assumption.
Qed.

End Loop.

(** ** The timeline when the clock never runs backwards *)

Section TimelineFacts.

Variable w : World.
Hypothesis latency_nonneg : forall k, 0 <= latency w k.
Hypothesis oversleep_nonneg : forall k, 0 <= oversleep w k.

Lemma poll_offset_succ k : poll_offset w k <= poll_offset w (S k).
Proof.
  cbn [poll_offset]. pose proof (latency_nonneg k).
  destruct k as [|k]; [lia|]. pose proof (oversleep_nonneg k).
  unfold US_PER_SECOND. lia.
Qed.

Lemma poll_offset_mono j k :
  (j <= k)%nat -> poll_offset w j <= poll_offset w k.
Proof.
  induction 1 as [|k Hle IH]; [lia|].
  pose proof (poll_offset_succ k). lia.
Qed.

Lemma poll_offset_nonneg k : 0 <= poll_offset w k.
Proof. apply (poll_offset_mono 0 k). lia. Qed.

(** Poll [k + 1] is not issued before [k] seconds have passed. *)
Lemma poll_offset_lower k :
  Z.of_nat k * US_PER_SECOND <= poll_offset w (S k).
Proof.
  induction k as [|k IH].
  - pose proof (poll_offset_nonneg 1). lia.
  - change (poll_offset w (S (S k)))
      with (poll_offset w (S k) + latency w (S k) +
            (1 * US_PER_SECOND + oversleep w k)).
    pose proof (latency_nonneg (S k)). pose proof (oversleep_nonneg k).
    unfold US_PER_SECOND in *. lia.
Qed.

Lemma reading_offset_lower k :
  Z.of_nat k * US_PER_SECOND <= reading_offset w k.
Proof.
  unfold reading_offset. pose proof (poll_offset_lower k).
  pose proof (latency_nonneg (S k)). lia.
Qed.

Lemma reading_before_next_poll k :
  reading_offset w k <= poll_offset w (S (S k)).
Proof.
  unfold reading_offset.
  change (poll_offset w (S (S k)))
    with (poll_offset w (S k) + latency w (S k) +
          (1 * US_PER_SECOND + oversleep w k)).
  pose proof (oversleep_nonneg k). unfold US_PER_SECOND. lia.
Qed.

(** While less than [timeout] seconds have passed when poll [k] is
    issued, every earlier evaluation of the loop condition saw a
    [running_time] below [timeout]. *)
Lemma running_time_below timeout j k :
  (j < k)%nat ->
  poll_offset w k < timeout * US_PER_SECOND ->
  running_time_at w j < timeout.
Proof.
  intros Hjk Hk. pose proof (poll_offset_nonneg k) as Hk0.
  assert (0 < timeout) as Hpos by (unfold US_PER_SECOND in *; lia).
  destruct j as [|i]; [exact Hpos|]. cbn [running_time_at].
  pose proof (reading_offset_lower i) as Hlo.
  pose proof (reading_before_next_poll i) as Hnext.
  pose proof (poll_offset_mono (S (S i)) k ltac:(lia)) as Hmono.
  pose proof (seconds_le_elapsed (reading_offset w i)
                ltac:(unfold US_PER_SECOND in *; lia)) as Hsec.
  unfold US_PER_SECOND in *. nia.
Qed.

End TimelineFacts.

Lemma count_requests_loop_trace self token k :
  count_requests (loop_trace self token k) = S k.
Proof.
  unfold count_requests. induction k as [|k IH]; [reflexivity|].
  cbn [loop_trace]. rewrite List.filter_app, length_app, IH. simpl. lia.
Qed.

Lemma count_sleeps_loop_trace self token k :
  count_sleeps (loop_trace self token k) = k.
Proof.
  unfold count_sleeps. induction k as [|k IH]; [reflexivity|].
  cbn [loop_trace]. rewrite List.filter_app, length_app, IH. simpl. lia.
Qed.

(** ** Claims about [login_flow_wait_confirm] *)

(** C2.  If the N-th poll (N >= 1) is the first one answered with a status
    other than 404, the clock never runs backwards, and fewer than
    [timeout] seconds have passed when that poll is issued, then with fuel
    for N - 1 iterations [login_flow_wait_confirm] ends with
    [response.json()] of that N-th answer (so it returns the parsed body
    whenever there is one) and has issued exactly N requests: none follows
    the answer that was not a 404. *)
Theorem wait_confirm_returns_nth_answer
    (w : World) (self : Client) (token : string) (timeout : Z)
    (t0 : datetime) (N : nat) (rN : Response) :
  (1 <= N)%nat ->
  (forall k, 0 <= latency w k) ->
  (forall k, 0 <= oversleep w k) ->
  (forall j, (j < N - 1)%nat ->
     exists r, responses w j = inl r /\ status_code r = 404) ->
  responses w (N - 1)%nat = inl rN ->
  status_code rN <> 404 ->
  ((1 < N)%nat -> poll_offset w (N - 1) < timeout * US_PER_SECOND) ->
  forall fuel, (N - 1 <= fuel)%nat ->
  exists s,
    LoginFlowV2.login_flow_wait_confirm w self token timeout fuel
      (init_state t0) = response_json rN s /\
    (forall body, json rN = Some body ->
       LoginFlowV2.login_flow_wait_confirm w self token timeout fuel
         (init_state t0) = (Returned body, s)) /\
    nreq s = N /\
    count_requests (trace s) = N /\
    clock s = t0 + poll_offset w N.
Proof.
  intros HN Hlat Hos Hpend HrN Hstatus Helapsed fuel Hfuel.
  exists (loop_state w self token t0 (N - 1)).
  assert (LoginFlowV2.login_flow_wait_confirm w self token timeout fuel
            (init_state t0) =
          response_json rN (loop_state w self token t0 (N - 1))) as Hrun.
  { replace fuel with ((N - 1) + (fuel - (N - 1)))%nat by lia.
    rewrite (pending_run w self token timeout t0 (N - 1)) with (rk := rN).
    - rewrite wait_loop_exit.
      + apply Z.eqb_neq in Hstatus. rewrite Hstatus. reflexivity.
      + apply Z.eqb_neq in Hstatus. rewrite Hstatus. reflexivity.
    - intros j Hj. destruct (Hpend j Hj) as (r & Hr & H404).
      exists r. repeat split; try assumption.
      apply running_time_below with (k := (N - 1)%nat); try assumption.
      apply Helapsed. lia.
    - exact HrN. }
  split; [exact Hrun|]. split.
  - intros body Hbody. rewrite Hrun. unfold response_json.
    rewrite Hbody. reflexivity.
  - cbn [loop_state nreq trace clock].
    rewrite count_requests_loop_trace.
    replace (S (N - 1)) with N by lia. auto.
Qed.

(** The scenario of the spec: 404, 404, then the credential, with a
    timeout of two seconds: three requests, and the credential comes
    back. *)
Lemma wait_confirm_returns_nth_answer_witness :
  exists s,
    LoginFlowV2.login_flow_wait_confirm scenario_world example_client "abc"
      2 2 (init_state 0) = (Returned app_credential, s) /\
    nreq s = 3%nat /\ count_requests (trace s) = 3%nat.
Proof.
  destruct (wait_confirm_returns_nth_answer scenario_world example_client
              "abc" 2 0 3
              {| status_code := 200; json := Some app_credential |})
    with (fuel := 2%nat) as (s & _ & Hbody & Hn & Hc & _).
  - lia.
  - intros k. simpl. lia.
  - intros k. simpl. lia.
  - intros j Hj. exists pending_response.
    destruct j as [|[|j]]; [split; reflexivity | split; reflexivity | lia].
  - reflexivity.
  - simpl. lia.
  - intros _. vm_compute. reflexivity.
  - simpl. lia.
  - exists s. split; [apply Hbody; reflexivity | split; assumption].
Defined.

(** When the k-th reading (from 0) shows between k and k + 1 seconds, the
    loop sees [running_time = k] after it. *)
Lemma running_time_on_schedule (w : World) (k : nat) :
  (forall i, 0 <= latency w i) ->
  (forall i, 0 <= oversleep w i) ->
  Z.of_nat k < SECONDS_PER_DAY ->
  reading_offset w k < (Z.of_nat k + 1) * US_PER_SECOND ->
  running_time_at w (S k) = Z.of_nat k.
Proof.
  intros Hlat Hos Hday Hup. cbn [running_time_at].
  apply seconds_exact; [lia|].
  split; [apply reading_offset_lower; assumption | exact Hup].
Qed.

(** C1, as amended.  For [0 <= timeout < 86400], if every poll is answered
    with a 404, the clock never runs backwards, and every clock reading up
    to the one of iteration [timeout] is on schedule (the k-th reading,
    from 0, is taken less than k + 1 seconds after the start: answers and
    sleeps are late by less than a second in total), then with enough fuel
    [login_flow_wait_confirm] raises [NextCloudLoginFlowTimeout], at least
    [timeout] seconds after the start, having issued at least
    [timeout + 1] polls. *)
Theorem wait_confirm_times_out_on_schedule
    (w : World) (self : Client) (token : string) (timeout : Z)
    (t0 : datetime) :
  0 <= timeout < SECONDS_PER_DAY ->
  (forall k, exists r, responses w k = inl r /\ status_code r = 404) ->
  (forall k, 0 <= latency w k) ->
  (forall k, 0 <= oversleep w k) ->
  (forall k, Z.of_nat k <= timeout ->
     reading_offset w k < (Z.of_nat k + 1) * US_PER_SECOND) ->
  exists n s,
    (forall fuel, (n <= fuel)%nat ->
       LoginFlowV2.login_flow_wait_confirm w self token timeout fuel
         (init_state t0) =
       (Raised (NextCloudLoginFlowTimeout LoginFlowV2.timeout_message), s)) /\
    timeout * US_PER_SECOND <= clock s - t0 /\
    timeout + 1 <= Z.of_nat (nreq s) /\
    count_requests (trace s) = nreq s.
Proof.
  intros Ht H404 Hlat Hos Hsched.
  set (K := if timeout =? 0 then 0%nat else S (Z.to_nat timeout)).
  assert (forall j, (j < K)%nat -> pending w timeout j) as Hpend.
  { intros j Hj. destruct (H404 j) as (r & Hr & Hs).
    exists r. repeat split; try assumption. subst K.
    destruct (Z.eqb_spec timeout 0) as [->|Hne]; [lia|].
    destruct j as [|i]; [cbn; lia|].
    rewrite running_time_on_schedule; try assumption; try lia.
    apply Hsched. lia. }
  assert (timeout <= running_time_at w K) as Hexit.
  { subst K. destruct (Z.eqb_spec timeout 0) as [->|Hne]; [cbn; lia|].
    rewrite running_time_on_schedule; try assumption; try lia.
    apply Hsched. lia. }
  destruct (H404 K) as (rK & HrK & HsK).
  exists K, (loop_state w self token t0 K). split; [|split; [|split]].
  - intros fuel Hfuel. replace fuel with (K + (fuel - K))%nat by lia.
    rewrite (pending_run w self token timeout t0 K Hpend rK HrK).
    rewrite wait_loop_exit.
    + apply Z.eqb_eq in HsK. rewrite HsK. reflexivity.
    + apply andb_false_iff. right. apply Z.ltb_ge. exact Hexit.
  - cbn [loop_state clock].
    pose proof (poll_offset_lower w Hlat Hos K) as Hlow.
    subst K. destruct (Z.eqb_spec timeout 0) as [->|Hne].
    + unfold US_PER_SECOND in *. lia.
    + unfold US_PER_SECOND in *. lia.
  - cbn [loop_state nreq]. subst K.
    destruct (Z.eqb_spec timeout 0) as [->|Hne]; lia.
  - cbn [loop_state nreq trace]. apply count_requests_loop_trace.
Qed.

(** With instant answers and exact sleeps a three-second timeout is hit
    after five polls. *)
Lemma wait_confirm_times_out_on_schedule_witness :
  exists n s,
    (forall fuel, (n <= fuel)%nat ->
       LoginFlowV2.login_flow_wait_confirm ideal_world example_client "abc"
         3 fuel (init_state 0) =
       (Raised (NextCloudLoginFlowTimeout LoginFlowV2.timeout_message), s)) /\
    3 * US_PER_SECOND <= clock s - 0 /\
    3 + 1 <= Z.of_nat (nreq s) /\
    count_requests (trace s) = nreq s.
Proof.
  apply (wait_confirm_times_out_on_schedule ideal_world example_client
           "abc" 3 0).
  - unfold SECONDS_PER_DAY. lia.
  - intros k. exists pending_response. split; reflexivity.
  - intros k. simpl. lia.
  - intros k. simpl. lia.
  - intros k Hk.
    destruct k as [|[|[|[|k]]]]; [vm_compute; reflexivity .. | lia].
Defined.

(** C1 as stated fails on a slow transport: when every request takes five
    seconds, a ten-second timeout is hit after two polls, not eleven. *)
Lemma wait_confirm_slow_transport_two_polls :
  (exists s,
     LoginFlowV2.login_flow_wait_confirm slow_world example_client "abc"
       10 1 (init_state 0) =
     (Raised (NextCloudLoginFlowTimeout LoginFlowV2.timeout_message), s) /\
     nreq s = 2%nat /\ count_requests (trace s) = 2%nat) /\
  ~ (exists fuel s e,
       LoginFlowV2.login_flow_wait_confirm slow_world example_client "abc"
         10 fuel (init_state 0) = (Raised e, s) /\
       10 + 1 <= Z.of_nat (nreq s)).
Proof.
  split.
  - eexists. split; [vm_compute; reflexivity|]. split; reflexivity.
  - intros (fuel & s & e & Hrun & Hn).
    destruct fuel as [|fuel].
    + vm_compute in Hrun. discriminate Hrun.
    + change (S fuel) with (1 + fuel)%nat in Hrun.
      rewrite (pending_run slow_world example_client "abc" 10 0 1)
        with (rk := pending_response) in Hrun.
      * rewrite wait_loop_exit in Hrun by (vm_compute; reflexivity).
        apply (f_equal snd) in Hrun. cbn in Hrun. subst s.
        cbn [loop_state nreq] in Hn. lia.
      * intros j Hj. exists pending_response.
        destruct j as [|j]; [|lia].
        split; [reflexivity|]. split; [reflexivity|]. cbn. lia.
      * reflexivity.
Qed.

(** [running_time] is the [seconds] field of a [timedelta], so it stays
    below 86400 whatever the clock shows: with a timeout of a day or more
    and no confirmation, no amount of fuel ends the loop. *)
Lemma pending_forever (w : World) (self : Client) (token : string)
    (timeout : Z) (t0 : datetime) :
  SECONDS_PER_DAY <= timeout ->
  (forall k, exists r, responses w k = inl r /\ status_code r = 404) ->
  forall fuel,
    fst (LoginFlowV2.login_flow_wait_confirm w self token timeout fuel
           (init_state t0)) = OutOfFuel.
Proof.
  intros Hday H404 fuel. apply pending_out_of_fuel.
  intros j _. destruct (H404 j) as (r & Hr & Hs).
  exists r. repeat split; try assumption.
  destruct j as [|i]; cbn [running_time_at].
  - unfold SECONDS_PER_DAY in Hday. lia.
  - pose proof (seconds_range (reading_offset w i) 0). lia.
Qed.

Lemma ideal_poll_offset (k : nat) :
  poll_offset ideal_world (S k) = Z.of_nat k * US_PER_SECOND.
Proof.
  induction k as [|k IH]; [reflexivity|].
  change (poll_offset ideal_world (S (S k)))
    with (poll_offset ideal_world (S k) + 0 + (1 * US_PER_SECOND + 0)).
  rewrite IH. lia.
Qed.

Lemma ideal_reading_offset (k : nat) :
  reading_offset ideal_world k = Z.of_nat k * US_PER_SECOND.
Proof.
  unfold reading_offset. rewrite ideal_poll_offset. cbn [latency ideal_world].
  lia.
Qed.

(** C7, at the failing input: with instant 404 answers and sleeps of
    exactly one second (each sleep advances the clock by a second), a
    timeout of 86400 seconds is never reached: whatever the fuel, the run
    is still in the loop. *)
Theorem wait_confirm_day_timeout_never_ends :
  (forall s,
     clock (snd (sleep ideal_world 1 s)) = clock s + 1 * US_PER_SECOND) /\
  forall (fuel : nat) (t0 : datetime),
    fst (LoginFlowV2.login_flow_wait_confirm ideal_world example_client
           "abc" 86400 fuel (init_state t0)) = OutOfFuel.
Proof.
  split.
  - intros s. cbn. lia.
  - intros fuel t0. apply pending_forever.
    + unfold SECONDS_PER_DAY. lia.
    + intros k. exists pending_response. split; reflexivity.
Qed.

(** C4, at the failing input: in the same run, the reading of the
    iteration that starts 86400 seconds after the start (iteration 86400,
    from 0) sets [running_time] to 0, not to 86400: the loop goes on from
    there with [running_time = 0], 86401 seconds after the start. *)
Theorem wait_confirm_running_time_wraps :
  forall (fuel : nat) (t0 : datetime),
    reading_offset ideal_world (Z.to_nat 86400) = 86400 * US_PER_SECOND /\
    LoginFlowV2.login_flow_wait_confirm ideal_world example_client "abc"
      86400 (Z.to_nat 86401 + fuel) (init_state t0) =
    LoginFlowV2.wait_loop ideal_world example_client "abc" 86400 fuel t0
      pending_response 0
      (loop_state ideal_world example_client "abc" t0 (Z.to_nat 86401)) /\
    clock (loop_state ideal_world example_client "abc" t0 (Z.to_nat 86401))
      - t0 = 86401 * US_PER_SECOND.
Proof.
  intros fuel t0.
  assert (Z.to_nat 86401 = S (Z.to_nat 86400)) as Hk by lia.
  assert (Z.of_nat (Z.to_nat 86400) = 86400) as Hn by lia.
  generalize dependent (Z.to_nat 86401). intros k ->.
  generalize dependent (Z.to_nat 86400). intros n Hn.
  split; [rewrite ideal_reading_offset, Hn; reflexivity|]. split.
  - rewrite (pending_run ideal_world example_client "abc" 86400 t0 (S n))
      with (rk := pending_response).
    + f_equal. cbn [running_time_at].
      rewrite ideal_reading_offset, Hn. vm_compute. reflexivity.
    + intros j _. exists pending_response. repeat split.
      destruct j as [|i]; cbn [running_time_at]; [lia|].
      pose proof (seconds_range (reading_offset ideal_world i) 0) as Hr.
      unfold SECONDS_PER_DAY in Hr. lia.
    + reflexivity.
  - cbn [loop_state clock]. rewrite ideal_poll_offset.
    unfold US_PER_SECOND. lia.
Qed.

(** C3 as stated fails: a 500 answer with a JSON body is not raised as an
    error, its body is what [login_flow_wait_confirm] returns. *)
Lemma wait_confirm_returns_error_body :
  exists s,
    LoginFlowV2.login_flow_wait_confirm failing_world example_client "abc"
      60 0 (init_state 0) = (Returned error_body, s) /\
    nreq s = 1%nat /\
    forall e : exn, Returned error_body <> Raised e.
Proof.
  eexists. split; [vm_compute; reflexivity|].
  split; [reflexivity | discriminate].
Qed.

(** An answer that is not a 404 ends the loop where it stands. *)
Lemma wait_loop_exit_other (w : World) (self : Client) (token : string)
    (timeout : Z) (fuel : nat) (start_dt : datetime) (r : Response)
    (rt : Z) (s : State) :
  status_code r <> 404 ->
  LoginFlowV2.wait_loop w self token timeout fuel start_dt r rt s =
  response_json r s.
Proof.
  intros Hs. apply Z.eqb_neq in Hs.
  rewrite wait_loop_exit by (rewrite Hs; reflexivity).
  rewrite Hs. reflexivity.
Qed.

(** ** What a finished run says about its last answer *)

Section LastAnswer.

Variable w : World.
Variable self : Client.
Variable token : string.
Variable timeout : Z.

Lemma response_json_state r s : snd (response_json r s) = s.
Proof. unfold response_json. destruct (json r); reflexivity. Qed.

Lemma response_json_not_timeout r s msg :
  fst (response_json r s) <> Raised (NextCloudLoginFlowTimeout msg).
Proof. unfold response_json. destruct (json r); discriminate. Qed.

Lemma exit_last_answer fuel start_dt r rt s out s' :
  (status_code r =? 404) && (rt <? timeout) = false ->
  (1 <= nreq s)%nat ->
  responses w (pred (nreq s)) = inl r ->
  LoginFlowV2.wait_loop w self token timeout fuel start_dt r rt s =
  (out, s') ->
  last_answer_decides w out s'.
Proof.
  intros Hcond Hn Hr Hrun. rewrite wait_loop_exit in Hrun by exact Hcond.
  destruct (Z.eqb_spec (status_code r) 404) as [H404|H404].
  - injection Hrun as <- <-. split; [exact Hn|].
    intros r' Hr'. rewrite Hr in Hr'. injection Hr' as <-.
    split; [tauto|congruence].
  - assert (s' = s) as ->.
    { rewrite <- (response_json_state r s), Hrun. reflexivity. }
    split; [exact Hn|].
    intros r' Hr'. rewrite Hr in Hr'. injection Hr' as <-. split.
    + split; [congruence|]. intros ->.
      pose proof (response_json_not_timeout r s
                    LoginFlowV2.timeout_message) as Hne.
      rewrite Hrun in Hne. exfalso. apply Hne. reflexivity.
    + intros _. symmetry. exact Hrun.
Qed.

Lemma wait_loop_last_answer fuel :
  forall start_dt r rt s out s',
    (1 <= nreq s)%nat ->
    responses w (pred (nreq s)) = inl r ->
    LoginFlowV2.wait_loop w self token timeout fuel start_dt r rt s =
    (out, s') ->
    out <> OutOfFuel ->
    last_answer_decides w out s'.
Proof.
  induction fuel as [|fuel IH]; intros start_dt r rt s out s' Hn Hr Hrun Hout.
  all: destruct ((status_code r =? 404) && (rt <? timeout)) eqn:Hcond;
    [|eapply exit_last_answer; eassumption].
  - cbn [LoginFlowV2.wait_loop] in Hrun. rewrite Hcond in Hrun.
    injection Hrun as <- <-. congruence.
  - cbn [LoginFlowV2.wait_loop] in Hrun. rewrite Hcond in Hrun.
    unfold bind at 1 in Hrun. unfold request at 1 in Hrun.
    destruct (responses w (nreq s)) as [r1|e] eqn:Hr1;
      cbn [of_sum ret raise] in Hrun.
    + unfold bind, now, sleep in Hrun.
      eapply IH; [| |exact Hrun|exact Hout]; cbn [nreq]; [lia|exact Hr1].
    + injection Hrun as <- <-. split; cbn [nreq Nat.pred]; [lia|].
      intros r'. rewrite Hr1. discriminate.
Qed.

End LastAnswer.

(** The trace of the loop extends the trace it starts from. *)
Lemma wait_loop_trace_extends (w : World) (self : Client) (token : string)
    (timeout : Z) (fuel : nat) :
  forall start_dt r rt s,
    exists rest,
      trace (snd (LoginFlowV2.wait_loop w self token timeout fuel
                    start_dt r rt s)) = trace s ++ rest.
Proof.
  induction fuel as [|fuel IH]; intros start_dt r rt s.
  all: destruct ((status_code r =? 404) && (rt <? timeout)) eqn:Hcond.
  all: try (rewrite wait_loop_exit by exact Hcond; exists [];
            rewrite app_nil_r;
            destruct (status_code r =? 404);
            [reflexivity | rewrite response_json_state; reflexivity]).
  - cbn [LoginFlowV2.wait_loop]. rewrite Hcond. exists [].
    rewrite app_nil_r. reflexivity.
  - cbn [LoginFlowV2.wait_loop]. rewrite Hcond.
    unfold bind at 1. unfold request at 1.
    destruct (responses w (nreq s)) as [r1|e]; cbn [of_sum ret raise].
    + unfold bind, now, sleep. cbn [nreq nsleep clock trace nocs].
      match goal with
      | |- context [LoginFlowV2.wait_loop _ _ _ _ fuel ?a ?b ?c ?d] =>
          destruct (IH a b c d) as [rest Hrest]
      end.
      cbn [trace] in Hrest.
      exists ([EvRequest (LoginFlowV2.poll_request self token); EvNow;
               EvSleep 1] ++ rest).
      rewrite Hrest. rewrite <- !app_assoc. reflexivity.
    + eexists. reflexivity.
Qed.

(** C5.  Whatever the environment and the fuel, the trace of
    [login_flow_wait_confirm] starts with the reading of the start time
    and the first poll: no sleep comes before it.  And when that first
    poll is answered with a status other than 404, the run ends there with
    [response.json()] of the answer: one request, no sleep. *)
Theorem wait_confirm_first_poll_immediate
    (w : World) (self : Client) (token : string) (timeout : Z)
    (fuel : nat) (t0 : datetime) :
  (exists rest,
     trace (snd (LoginFlowV2.login_flow_wait_confirm w self token timeout
                   fuel (init_state t0))) =
     EvNow :: EvRequest (LoginFlowV2.poll_request self token) :: rest) /\
  (forall r, responses w 0%nat = inl r -> status_code r <> 404 ->
     exists s,
       LoginFlowV2.login_flow_wait_confirm w self token timeout fuel
         (init_state t0) = response_json r s /\
       trace s = [EvNow; EvRequest (LoginFlowV2.poll_request self token)] /\
       nreq s = 1%nat /\ nsleep s = 0%nat /\
       count_sleeps (trace s) = 0%nat).
Proof.
  split.
  - unfold LoginFlowV2.login_flow_wait_confirm.
    unfold bind at 1. unfold now at 1.
    unfold bind at 1. unfold request at 1.
    cbn [nreq init_state].
    destruct (responses w 0%nat) as [r0|e]; cbn [of_sum ret raise].
    + match goal with
      | |- context [LoginFlowV2.wait_loop _ _ _ _ _ ?a ?b ?c ?d] =>
          destruct (wait_loop_trace_extends w self token timeout fuel
                      a b c d) as [rest Hrest]
      end.
      exists rest. rewrite Hrest. reflexivity.
    + exists []. reflexivity.
  - intros r Hr Hs. exists (loop_state w self token t0 0).
    split; [|repeat split].
    rewrite (run_enters_loop w self token timeout fuel t0 r Hr).
    apply wait_loop_exit_other. exact Hs.
Qed.

Lemma wait_confirm_first_poll_immediate_witness :
  exists s,
    LoginFlowV2.login_flow_wait_confirm immediate_world example_client "abc"
      60 0 (init_state 0) = (Returned app_credential, s) /\
    trace s = [EvNow;
               EvRequest (LoginFlowV2.poll_request example_client "abc")] /\
    nsleep s = 0%nat.
Proof.
  destruct (wait_confirm_first_poll_immediate immediate_world example_client
              "abc" 60 0 0) as [_ Hfirst].
  destruct (Hfirst {| status_code := 200; json := Some app_credential |}
              eq_refl ltac:(simpl; lia))
    as (s & Hrun & Htrace & _ & Hsleep & _).
  exists s. split; [exact Hrun|]. split; assumption.
Defined.

(** ** [login_flow_initiate] *)

(** C8.  [login_flow_initiate] sends exactly one request, a POST to
    [{endpoint}/index.php/login/v2] without a body, and ends with
    [response.json()] of the answer (or with the transport's exception).
    Without a [user_agent] the [user-agent] header is ["nextcloud_aio/"]
    followed by the package version; with one, it is that string as
    given. *)
Theorem login_flow_initiate_request
    (version : string) (w : World) (self : Client) (s : State) :
  let sent ua :=
    {| req_method := "POST";
       req_url := endpoint self +:+ "/index.php/login/v2";
       req_headers := Some [("user-agent", ua)];
       req_data := None |} in
  let after ua :=
    {| clock := clock s + latency w (nreq s);
       nreq := S (nreq s); nsleep := nsleep s; nocs := nocs s;
       trace := trace s ++ [EvRequest (sent ua)] |} in
  let answer s' :=
    match responses w (nreq s) with
    | inl r => response_json r s'
    | inr e => (Raised e, s')
    end in
  LoginFlowV2.login_flow_initiate version w self None s =
    answer (after ("nextcloud_aio/" +:+ version)) /\
  forall label,
    LoginFlowV2.login_flow_initiate version w self (Some label) s =
      answer (after label).
Proof.
  cbv zeta. unfold LoginFlowV2.login_flow_initiate, bind, request.
  split; [|intros label];
    destruct (responses w (nreq s)); reflexivity.
Qed.

(** ** The group-folder catalog *)

(** C9.  Every method of [GroupFolderManager] issues exactly one
    [ocs_query], with the method, the path (below [/apps/groupfolders],
    identifiers interpolated) and the body of its row in the table of
    section 4.2, whatever the inputs.  So
    [set_group_folder_quota(folder_id=5, quota=-3)] issues
    [POST /apps/groupfolders/folders/5/quota] with body [{"quota": -3}],
    and the ACL toggle sends [{"acl": 1}] to enable and [{"acl": 0}] to
    disable. *)
Theorem catalog_matches_table (w : World) :
  (forall op,
     issues_exactly w (call w op)
       {| ocs_method := table_method op;
          ocs_sub := "/apps/groupfolders" +:+ table_path op;
          ocs_data := table_body op |}) /\
  issues_exactly w (GroupFolderManager.set_group_folder_quota w 5 (-3))
    {| ocs_method := "POST";
       ocs_sub := "/apps/groupfolders/folders/5/quota";
       ocs_data := Some [("quota", JInt (-3))] |} /\
  (forall folder_id,
     issues_exactly w
       (GroupFolderManager.enable_group_folder_advanced_permissions w
          folder_id)
       {| ocs_method := "POST";
          ocs_sub := "/apps/groupfolders/folders/" +:+ str_of_int folder_id
                     +:+ "/acl";
          ocs_data := Some [("acl", JInt 1)] |}) /\
  (forall folder_id,
     issues_exactly w
       (GroupFolderManager.disable_group_folder_advanced_permissions w
          folder_id)
       {| ocs_method := "POST";
          ocs_sub := "/apps/groupfolders/folders/" +:+ str_of_int folder_id
                     +:+ "/acl";
          ocs_data := Some [("acl", JInt 0)] |}).
Proof.
  split; [|split; [|split]].
  - intros op s.
    destruct op as [| | | | | | ? [|] | ? ? ? [|] | | |]; reflexivity.
  - intros s. reflexivity.
  - intros folder_id s. reflexivity.
  - intros folder_id s. reflexivity.
Qed.

(** ** The permission flags *)

Lemma land_pow2_eqb (a i : Z) :
  0 <= i -> (Z.land a (2 ^ i) =? 2 ^ i) = Z.testbit a i.
Proof.
  intros Hi. destruct (Z.testbit a i) eqn:E.
  - apply Z.eqb_eq. apply Z.bits_inj'. intros m Hm.
    rewrite Z.land_spec, Z.pow2_bits_eqb by exact Hi.
    destruct (Z.eqb_spec i m) as [<-|Hne].
    + rewrite E. reflexivity.
    + apply andb_false_r.
  - apply Z.eqb_neq. intros Heq.
    assert (Z.testbit (Z.land a (2 ^ i)) i = Z.testbit (2 ^ i) i) as Hbit
      by (rewrite Heq; reflexivity).
    rewrite Z.land_spec, Z.pow2_bits_eqb, Z.eqb_refl, E in Hbit by exact Hi.
    discriminate Hbit.
Qed.

Lemma member_value (n : Permissions.name) :
  Permissions.value (Permissions.member n) =
  2 ^ Z.of_nat (Permissions.bit n).
Proof. destruct n; reflexivity. Qed.

Lemma contains_testbit (p : Permissions.t) (n : Permissions.name) :
  Permissions.contains p n =
  Z.testbit (Permissions.value p) (Z.of_nat (Permissions.bit n)).
Proof.
  unfold Permissions.contains. rewrite member_value.
  apply land_pow2_eqb. lia.
Qed.

Lemma elem_of_members (p : Permissions.t) (n : Permissions.name) :
  n ∈ Permissions.members p <-> Permissions.contains p n = true.
Proof.
  unfold Permissions.members.
  rewrite elem_of_list_to_set, list_elem_of_In, List.filter_In.
  split; [tauto|]. intros Hc. split; [|exact Hc].
  destruct n; simpl; tauto.
Qed.

Lemma contains_or (p q : Permissions.t) (n : Permissions.name) :
  Permissions.contains (Permissions.or p q) n =
  Permissions.contains p n || Permissions.contains q n.
Proof. rewrite !contains_testbit. apply Z.lor_spec. Qed.

Lemma contains_member (m n : Permissions.name) :
  Permissions.contains (Permissions.member m) n = true <-> n = m.
Proof.
  destruct m, n; split; intros H;
    solve [reflexivity | discriminate H | vm_compute in H; discriminate H].
Qed.

Lemma contains_combine (l : list Permissions.name) (n : Permissions.name) :
  Permissions.contains (Permissions.combine l) n = true <-> n ∈ l.
Proof.
  induction l as [|x l IH].
  - split; [destruct n; discriminate|]. intros H. inversion H.
  - cbn [Permissions.combine fold_right].
    change (fold_right _ _ l) with (Permissions.combine l).
    rewrite contains_or, orb_true_iff, contains_member, IH, elem_of_cons.
    reflexivity.
Qed.

(** Or-ing in a member that is already there changes nothing; or-ing in a
    new one adds its value. *)
Lemma or_member_value (x : Permissions.name) (p : Permissions.t) :
  Permissions.value (Permissions.or (Permissions.member x) p) =
  if Permissions.contains p x then Permissions.value p
  else Permissions.value (Permissions.member x) + Permissions.value p.
Proof.
  cbn [Permissions.or Permissions.value].
  destruct (Permissions.contains p x) eqn:Hc.
  - unfold Permissions.contains in Hc. apply Z.eqb_eq in Hc.
    apply Z.bits_inj'. intros m Hm. rewrite Z.lor_spec.
    apply (f_equal (fun z => Z.testbit z m)) in Hc.
    rewrite Z.land_spec in Hc.
    destruct (Z.testbit (Permissions.value p) m),
             (Z.testbit (Permissions.value (Permissions.member x)) m);
      simpl in *; congruence.
  - rewrite contains_testbit in Hc.
    assert (Z.land (Permissions.value (Permissions.member x))
              (Permissions.value p) = 0) as Hland.
    { rewrite member_value. apply Z.bits_inj'. intros m Hm.
      rewrite Z.land_spec, Z.pow2_bits_eqb, Z.bits_0 by lia.
      destruct (Z.eqb_spec (Z.of_nat (Permissions.bit x)) m) as [<-|Hne].
      - rewrite Hc. reflexivity.
      - reflexivity. }
    rewrite Z.add_nocarry_lxor by exact Hland.
    symmetry. apply Z.lxor_lor. exact Hland.
Qed.

(** C10.  The five flags are 1, 2, 4, 8 and 16.  [|] is the union of the
    represented permission sets, and is commutative, associative and
    idempotent.  A combination of members represents the set of those
    members and its integer value is the sum of the values of its distinct
    members; [read | update] is 3. *)
Theorem permissions_flag_algebra :
  (Permissions.value Permissions.read = 1 /\
   Permissions.value Permissions.update = 2 /\
   Permissions.value Permissions.create = 4 /\
   Permissions.value Permissions.delete = 8 /\
   Permissions.value Permissions.share = 16) /\
  (forall p q,
     Permissions.members (Permissions.or p q) =
     Permissions.members p ∪ Permissions.members q) /\
  (forall p q, Permissions.or p q = Permissions.or q p) /\
  (forall p q r,
     Permissions.or p (Permissions.or q r) =
     Permissions.or (Permissions.or p q) r) /\
  (forall p, Permissions.or p p = p) /\
  (forall l : list Permissions.name,
     Permissions.members (Permissions.combine l) = list_to_set l /\
     Permissions.value (Permissions.combine l) =
     Permissions.sum_values (remove_dups l)) /\
  Permissions.value (Permissions.or Permissions.read Permissions.update) = 3.
Proof.
  split; [repeat split|]. split; [|split; [|split; [|split; [|split]]]].
  - intros p q. apply set_eq. intros n.
    rewrite elem_of_union, !elem_of_members, contains_or, orb_true_iff.
    reflexivity.
  - intros [a] [b]. unfold Permissions.or. cbn. f_equal. apply Z.lor_comm.
  - intros [a] [b] [c]. unfold Permissions.or. cbn. f_equal.
    apply Z.lor_assoc.
  - intros [a]. unfold Permissions.or. cbn. f_equal. apply Z.lor_diag.
  - intros l. split.
    + apply set_eq. intros n.
      rewrite elem_of_members, contains_combine, elem_of_list_to_set.
      reflexivity.
    + induction l as [|x l IH]; [reflexivity|].
      cbn [Permissions.combine fold_right].
      change (fold_right _ _ l) with (Permissions.combine l).
      rewrite or_member_value. cbn [remove_dups].
      destruct (decide_rel elem_of x l) as [Hin|Hnotin].
      * apply contains_combine in Hin. rewrite Hin. exact IH.
      * destruct (Permissions.contains (Permissions.combine l) x) eqn:Hc.
        { apply contains_combine in Hc. contradiction. }
        cbn [Permissions.sum_values fold_right].
        change (fold_right _ _ (remove_dups l))
          with (Permissions.sum_values (remove_dups l)).
        rewrite IH. reflexivity.
  - reflexivity.
Qed.

(** * Further properties of the code *)

(** ** What the polling loop does to the outside *)

Lemma count_requests_app (l l' : list event) :
  count_requests (l ++ l') = (count_requests l + count_requests l')%nat.
Proof. unfold count_requests. rewrite List.filter_app, length_app. reflexivity. Qed.

Lemma count_sleeps_app (l l' : list event) :
  count_sleeps (l ++ l') = (count_sleeps l + count_sleeps l')%nat.
Proof. unfold count_sleeps. rewrite List.filter_app, length_app. reflexivity. Qed.

Lemma wait_loop_exit_state (w : World) (self : Client) (token : string)
    (timeout : Z) (fuel : nat) (start_dt : datetime) (r : Response) (rt : Z)
    (s : State) :
  (status_code r =? 404) && (rt <? timeout) = false ->
  snd (LoginFlowV2.wait_loop w self token timeout fuel start_dt r rt s) = s.
Proof.
  intros Hcond. rewrite wait_loop_exit by exact Hcond.
  destruct (status_code r =? 404); [reflexivity|apply response_json_state].
Qed.

Lemma wait_loop_out_of_fuel (w : World) (self : Client) (token : string)
    (timeout : Z) (start_dt : datetime) (r : Response) (rt : Z) (s : State) :
  (status_code r =? 404) && (rt <? timeout) = true ->
  LoginFlowV2.wait_loop w self token timeout 0 start_dt r rt s =
  (OutOfFuel, s).
Proof. intros Hcond. cbn [LoginFlowV2.wait_loop]. rewrite Hcond. reflexivity. Qed.

(** The run up to the loop: the start time is read and the first poll
    sent. *)
Lemma run_unfold (w : World) (self : Client) (token : string) (timeout : Z)
    (fuel : nat) (t0 : datetime) :
  LoginFlowV2.login_flow_wait_confirm w self token timeout fuel
    (init_state t0) =
  match responses w 0%nat with
  | inl r0 =>
      LoginFlowV2.wait_loop w self token timeout fuel t0 r0 0
        (loop_state w self token t0 0)
  | inr e => (Raised e, loop_state w self token t0 0)
  end.
Proof.
  destruct (responses w 0%nat) as [r0|e] eqn:Hr0.
  - apply run_enters_loop. exact Hr0.
  - unfold LoginFlowV2.login_flow_wait_confirm, bind, now, request,
      init_state, loop_state.
    cbn [nreq nsleep clock trace nocs]. rewrite Hr0. cbn [of_sum raise].
    f_equal. f_equal. cbn [poll_offset]. lia.
Qed.

Lemma poll_state_first (w : World) (self : Client) (token : string)
    (t0 : datetime) :
  poll_state self token (loop_state w self token t0 0).
Proof.
  split; [|split; reflexivity]. unfold poll_event. cbn [loop_state trace loop_trace].
  constructor; [auto|]. constructor; [auto|constructor].
Qed.

Section PollInvariants.

Variable w : World.
Variable self : Client.
Variable token : string.
Variable timeout : Z.

Lemma poll_state_request s :
  poll_state self token s ->
  poll_state self token
    {| clock := clock s + latency w (nreq s);
       nreq := S (nreq s); nsleep := nsleep s; nocs := nocs s;
       trace := trace s ++
                [EvRequest (LoginFlowV2.poll_request self token)] |}.
Proof.
  intros (Hall & Hreq & Hsl). unfold poll_state. cbn [trace nreq nsleep].
  rewrite Forall_app, count_requests_app, count_sleeps_app, Hreq, Hsl.
  split; [|split; [cbn; lia | cbn; lia]].
  split; [exact Hall|].
  constructor; [right; left; reflexivity | constructor].
Qed.

Lemma poll_state_iteration s :
  poll_state self token s ->
  poll_state self token
    {| clock := clock s + latency w (nreq s) + 1 * US_PER_SECOND
                + oversleep w (nsleep s);
       nreq := S (nreq s); nsleep := S (nsleep s); nocs := nocs s;
       trace := trace s ++
                [EvRequest (LoginFlowV2.poll_request self token);
                 EvNow; EvSleep 1] |}.
Proof.
  intros (Hall & Hreq & Hsl). unfold poll_state. cbn [trace nreq nsleep].
  rewrite Forall_app, count_requests_app, count_sleeps_app, Hreq, Hsl.
  split; [|split; [cbn; lia | cbn; lia]].
  split; [exact Hall|]. unfold poll_event.
  constructor; [auto|]. constructor; [auto|]. constructor; [auto|constructor].
Qed.

(** The loop keeps the trace made of poll events, keeps the counters in
    step with it, sends no OCS query, and sleeps once per poll. *)
Lemma wait_loop_keeps_poll_state fuel :
  forall start_dt r rt s,
    poll_state self token s ->
    nreq s = S (nsleep s) ->
    let s' := snd (LoginFlowV2.wait_loop w self token timeout fuel
                     start_dt r rt s) in
    poll_state self token s' /\
    nocs s' = nocs s /\
    (S (nsleep s') <= nreq s' <= S (S (nsleep s')))%nat /\
    (forall r', responses w (pred (nreq s')) = inl r' ->
       nreq s' = S (nsleep s')).
Proof.
  induction fuel as [|fuel IH]; intros start_dt r rt s Hps Hn.
  all: destruct ((status_code r =? 404) && (rt <? timeout)) eqn:Hcond;
    [|cbv zeta; rewrite wait_loop_exit_state by exact Hcond;
      split; [exact Hps|]; split; [reflexivity|]; split; [lia|];
      intros; exact Hn].
  - cbv zeta. rewrite wait_loop_out_of_fuel by exact Hcond. cbn [snd].
    split; [exact Hps|]. split; [reflexivity|]. split; [lia|].
    intros; exact Hn.
  - cbv zeta. rewrite wait_loop_continue by exact Hcond.
    destruct (responses w (nreq s)) as [r1|e] eqn:Hr1.
    + match goal with
      | |- context [LoginFlowV2.wait_loop _ _ _ _ fuel ?a ?b ?c ?d] =>
          pose proof (IH a b c d (poll_state_iteration s Hps)
                        ltac:(cbn [nreq nsleep]; lia)) as Hnext
      end.
      cbv zeta in Hnext. cbn [nocs] in Hnext. exact Hnext.
    + cbn [snd nreq nsleep nocs Nat.pred].
      split; [apply poll_state_request; exact Hps|].
      split; [reflexivity|]. split; [lia|].
      intros r'. rewrite Hr1. discriminate.
Qed.

End PollInvariants.

(** X1.  Whatever the environment, the timeout and the fuel, everything
    [login_flow_wait_confirm] does is read the clock, send one and the same
    poll request (POST to [{endpoint}/index.php/login/v2/poll] with the
    token as its only field, no headers) and sleep for exactly one second:
    no backoff, no other request, no OCS query. *)
Theorem wait_confirm_only_polls_and_sleeps
    (w : World) (self : Client) (token : string) (timeout : Z)
    (fuel : nat) (t0 : datetime) :
  let s := snd (LoginFlowV2.login_flow_wait_confirm w self token timeout
                  fuel (init_state t0)) in
  Forall (fun e =>
            e = EvNow \/
            e = EvRequest
                  {| req_method := "POST";
                     req_url := endpoint self +:+ "/index.php/login/v2/poll";
                     req_headers := None;
                     req_data := Some [("token", JStr token)] |} \/
            e = EvSleep 1) (trace s) /\
  nocs s = 0%nat.
Proof.
  cbv zeta. rewrite run_unfold.
  pose proof (poll_state_first w self token t0) as Hps.
  destruct (responses w 0%nat) as [r0|e].
  - destruct (wait_loop_keeps_poll_state w self token timeout fuel
                t0 r0 0 _ Hps eq_refl) as ((Hall & _) & Hocs & _).
    split; [exact Hall | exact Hocs].
  - cbn [snd]. split; [apply Hps | reflexivity].
Qed.

(** ** Edge cases of the timeout and of the transport *)

(** X3.  With a timeout of zero or less the loop body never runs: exactly
    one poll is sent and nothing else happens.  A 404 raises the timeout
    exception at once, any other answer ends with [response.json()], and
    an exception of the transport is passed on. *)
Theorem wait_confirm_nonpositive_timeout
    (w : World) (self : Client) (token : string) (timeout : Z)
    (fuel : nat) (t0 : datetime) :
  timeout <= 0 ->
  let s1 :=
    {| clock := t0 + latency w 0; nreq := 1; nsleep := 0; nocs := 0;
       trace := [EvNow; EvRequest (LoginFlowV2.poll_request self token)] |} in
  LoginFlowV2.login_flow_wait_confirm w self token timeout fuel
    (init_state t0) =
  match responses w 0%nat with
  | inl r =>
      if status_code r =? 404
      then (Raised (NextCloudLoginFlowTimeout LoginFlowV2.timeout_message),
            s1)
      else response_json r s1
  | inr e => (Raised e, s1)
  end.
Proof.
  intros Ht. cbv zeta. rewrite run_unfold.
  assert (loop_state w self token t0 0 =
          {| clock := t0 + latency w 0; nreq := 1; nsleep := 0; nocs := 0;
             trace := [EvNow;
                       EvRequest (LoginFlowV2.poll_request self token)] |})
    as ->.
  { unfold loop_state. f_equal. cbn [poll_offset]. lia. }
  destruct (responses w 0%nat) as [r|e]; [|reflexivity].
  apply wait_loop_exit. apply andb_false_iff. right. apply Z.ltb_ge. lia.
Qed.

Lemma wait_confirm_nonpositive_timeout_witness :
  LoginFlowV2.login_flow_wait_confirm ideal_world example_client "abc" 0 5
    (init_state 0) =
  (Raised (NextCloudLoginFlowTimeout LoginFlowV2.timeout_message),
   {| clock := 0; nreq := 1; nsleep := 0; nocs := 0;
      trace := [EvNow;
                EvRequest (LoginFlowV2.poll_request example_client "abc")] |}).
Proof.
  apply (wait_confirm_nonpositive_timeout ideal_world example_client "abc"
           0 5 0).
  lia.
Defined.

(** A pending run whose next poll fails in the transport. *)
Lemma transport_error_run
    (w : World) (self : Client) (token : string) (timeout : Z)
    (t0 : datetime) (k : nat) (e : exn) :
  (forall j, (j < k)%nat -> pending w timeout j) ->
  responses w k = inr e ->
  exists s,
    (forall fuel, (k <= fuel)%nat ->
       LoginFlowV2.login_flow_wait_confirm w self token timeout fuel
         (init_state t0) = (Raised e, s)) /\
    nreq s = S k /\ nsleep s = pred k /\
    count_requests (trace s) = S k /\ count_sleeps (trace s) = pred k /\
    clock s = t0 + poll_offset w k + latency w k.
Proof.
  intros Hpend He. destruct k as [|k].
  - exists (loop_state w self token t0 0). split.
    + intros fuel _. rewrite run_unfold, He. reflexivity.
    + cbn [loop_state nreq nsleep trace clock Nat.pred poll_offset].
      repeat split; lia.
  - destruct (Hpend k ltac:(lia)) as (r & Hr & H404 & Hrt).
    eexists. split.
    + intros fuel Hfuel.
      replace fuel with (k + S (fuel - S k))%nat by lia.
      rewrite (pending_run w self token timeout t0 k
                 ltac:(intros; apply Hpend; lia) r Hr).
      rewrite wait_loop_continue.
      2:{ apply andb_true_iff. split; [apply Z.eqb_eq | apply Z.ltb_lt];
          assumption. }
      cbn [loop_state nreq nsleep clock trace nocs]. rewrite He.
      reflexivity.
    + cbn [nreq nsleep trace clock Nat.pred].
      rewrite count_requests_app, count_sleeps_app,
        count_requests_loop_trace, count_sleeps_loop_trace.
      repeat split; try (cbn; lia).
Qed.

(** X4.  An exception of the transport is never retried: if the run is
    still pending when poll [k] (from 0) is sent and the transport raises
    on it, [login_flow_wait_confirm] raises that very exception, after
    [k + 1] requests, without reading the clock or sleeping again. *)
Theorem wait_confirm_transport_error_propagates
    (w : World) (self : Client) (token : string) (timeout : Z)
    (t0 : datetime) (k : nat) (e : exn) :
  (forall j, (j < k)%nat -> pending w timeout j) ->
  responses w k = inr e ->
  exists s,
    (forall fuel, (k <= fuel)%nat ->
       LoginFlowV2.login_flow_wait_confirm w self token timeout fuel
         (init_state t0) = (Raised e, s)) /\
    nreq s = S k /\ nsleep s = pred k /\
    count_requests (trace s) = S k /\ count_sleeps (trace s) = pred k /\
    clock s = t0 + poll_offset w k + latency w k.
Proof.
  intros Hpend He.
  exact (transport_error_run w self token timeout t0 k e Hpend He).
Qed.

Lemma wait_confirm_transport_error_propagates_witness :
  exists s,
    LoginFlowV2.login_flow_wait_confirm broken_world example_client "abc"
      60 7 (init_state 0) = (Raised (CollaboratorError "connection reset"), s)
    /\ nreq s = 3%nat /\ nsleep s = 1%nat.
Proof.
  destruct (wait_confirm_transport_error_propagates broken_world
              example_client "abc" 60 0 2
              (CollaboratorError "connection reset"))
    as (s & Hrun & Hn & Hs & _).
  - intros j Hj. exists pending_response.
    destruct j as [|[|j]]; [| |lia];
      (split; [reflexivity|]; split; [reflexivity|]; vm_compute; reflexivity).
  - reflexivity.
  - exists s. split; [apply Hrun; lia|]. split; assumption.
Defined.

(** ** The timeout is never early *)

Lemma seconds_sub_le (a b : datetime) :
  b <= a -> seconds (datetime_sub a b) * US_PER_SECOND <= a - b.
Proof.
  intros Hab.
  replace (seconds (datetime_sub a b))
    with (seconds (datetime_sub (a - b) 0)).
  - apply seconds_le_elapsed. lia.
  - unfold datetime_sub; simpl. rewrite Z.sub_0_r. reflexivity.
Qed.

Section NotEarly.

Variable w : World.
Variable self : Client.
Variable token : string.
Variable timeout : Z.
Hypothesis latency_nonneg : forall k, 0 <= latency w k.
Hypothesis oversleep_nonneg : forall k, 0 <= oversleep w k.

Lemma wait_loop_timeout_not_early fuel :
  forall start_dt r rt s out s' r',
    start_dt <= clock s ->
    rt <= 0 \/ (rt + 1) * US_PER_SECOND <= clock s - start_dt ->
    responses w (pred (nreq s)) = inl r ->
    LoginFlowV2.wait_loop w self token timeout fuel start_dt r rt s =
    (out, s') ->
    out <> OutOfFuel ->
    responses w (pred (nreq s')) = inl r' ->
    status_code r' = 404 ->
    timeout * US_PER_SECOND <= clock s' - start_dt /\
    (0 < timeout -> (timeout + 1) * US_PER_SECOND <= clock s' - start_dt).
Proof.
  induction fuel as [|fuel IH];
    intros start_dt r rt s out s' r' Hclock Hrt Hr Hrun Hout Hr' H404.
  all: destruct ((status_code r =? 404) && (rt <? timeout)) eqn:Hcond.
  - rewrite wait_loop_out_of_fuel in Hrun by exact Hcond.
    injection Hrun as <- <-. congruence.
  - pose proof (wait_loop_exit_state w self token timeout 0 start_dt r rt s
                  Hcond) as Hs.
    rewrite Hrun in Hs. cbn [snd] in Hs. subst s'.
    rewrite Hr in Hr'. injection Hr' as <-.
    apply Z.eqb_eq in H404. rewrite H404 in Hcond. cbn [andb] in Hcond.
    apply Z.ltb_ge in Hcond. unfold US_PER_SECOND in *. lia.
  - rewrite wait_loop_continue in Hrun by exact Hcond.
    destruct (responses w (nreq s)) as [r1|e] eqn:Hr1.
    + pose proof (latency_nonneg (nreq s)) as Hl.
      pose proof (oversleep_nonneg (nsleep s)) as Ho.
      pose proof (seconds_sub_le (clock s + latency w (nreq s)) start_dt
                    ltac:(lia)) as Hsec.
      eapply IH; [| | |exact Hrun|exact Hout|exact Hr'|exact H404];
        cbn [clock nreq Nat.pred].
      * unfold US_PER_SECOND. lia.
      * right. unfold US_PER_SECOND in *. lia.
      * exact Hr1.
    + injection Hrun as <- <-. cbn [nreq Nat.pred] in Hr'.
      rewrite Hr1 in Hr'. discriminate Hr'.
  - pose proof (wait_loop_exit_state w self token timeout (S fuel) start_dt
                  r rt s Hcond) as Hs.
    rewrite Hrun in Hs. cbn [snd] in Hs. subst s'.
    rewrite Hr in Hr'. injection Hr' as <-.
    apply Z.eqb_eq in H404. rewrite H404 in Hcond. cbn [andb] in Hcond.
    apply Z.ltb_ge in Hcond. unfold US_PER_SECOND in *. lia.
Qed.

End NotEarly.

(** X5.  When the clock never runs backwards (latencies and sleep overruns
    are not negative), a run that ends on a 404 answer, that is with the
    timeout exception of the loop, ends at least [timeout] seconds after
    the start, and at least [timeout + 1] seconds after it when the
    timeout is positive: the loop sleeps once more after the reading that
    reaches the timeout. *)
Theorem wait_confirm_timeout_not_early
    (w : World) (self : Client) (token : string) (timeout : Z)
    (fuel : nat) (t0 : datetime) (out : outcome JSON) (s : State)
    (r : Response) :
  (forall k, 0 <= latency w k) ->
  (forall k, 0 <= oversleep w k) ->
  LoginFlowV2.login_flow_wait_confirm w self token timeout fuel
    (init_state t0) = (out, s) ->
  out <> OutOfFuel ->
  responses w (pred (nreq s)) = inl r ->
  status_code r = 404 ->
  out = Raised (NextCloudLoginFlowTimeout LoginFlowV2.timeout_message) /\
  timeout * US_PER_SECOND <= clock s - t0 /\
  (0 < timeout -> (timeout + 1) * US_PER_SECOND <= clock s - t0).
Proof.
  intros Hlat Hos Hrun Hout Hr H404.
  rewrite run_unfold in Hrun.
  destruct (responses w 0%nat) as [r0|e] eqn:Hr0.
  - split.
    + destruct (wait_loop_last_answer w self token timeout fuel t0 r0 0
                  (loop_state w self token t0 0) out s
                  ltac:(cbn; lia) Hr0 Hrun Hout) as [_ Hlast].
      destruct (Hlast r Hr) as [Hiff _]. apply Hiff. exact H404.
    + apply (wait_loop_timeout_not_early w self token timeout Hlat Hos fuel
               t0 r0 0 (loop_state w self token t0 0) out s r).
      * cbn [loop_state clock poll_offset]. pose proof (Hlat 0%nat). lia.
      * left. lia.
      * exact Hr0.
      * exact Hrun.
      * exact Hout.
      * exact Hr.
      * exact H404.
  - injection Hrun as <- <-. cbn [loop_state nreq Nat.pred] in Hr.
    rewrite Hr0 in Hr. discriminate Hr.
Qed.

Lemma wait_confirm_timeout_not_early_witness :
  3 * US_PER_SECOND <=
    clock (loop_state ideal_world example_client "abc" 0 4) - 0 /\
  (0 < 3 ->
   (3 + 1) * US_PER_SECOND <=
     clock (loop_state ideal_world example_client "abc" 0 4) - 0).
Proof.
  assert (LoginFlowV2.login_flow_wait_confirm ideal_world example_client
            "abc" 3 4 (init_state 0) =
          (Raised (NextCloudLoginFlowTimeout LoginFlowV2.timeout_message),
           loop_state ideal_world example_client "abc" 0 4)) as Hrun
    by (vm_compute; reflexivity).
  apply (wait_confirm_timeout_not_early ideal_world example_client "abc" 3
           4 0 _ _ pending_response
           ltac:(intros k; simpl; lia) ltac:(intros k; simpl; lia)
           Hrun ltac:(discriminate) eq_refl eq_refl).
Defined.

(** ** What [running_time] is *)

Lemma seconds_formula (a b : datetime) :
  seconds (datetime_sub a b) =
  ((a - b) / US_PER_SECOND) mod SECONDS_PER_DAY.
Proof.
  unfold datetime_sub; cbn [seconds]. unfold US_PER_DAY.
  rewrite (Z.mul_comm SECONDS_PER_DAY US_PER_SECOND).
  rewrite Z.rem_mul_r by (unfold US_PER_SECOND, SECONDS_PER_DAY; lia).
  set (x := ((a - b) / US_PER_SECOND) mod SECONDS_PER_DAY).
  pose proof (Z.mod_pos_bound (a - b) US_PER_SECOND
                ltac:(unfold US_PER_SECOND; lia)) as Hm.
  symmetry. apply Z.div_unique with (r := (a - b) mod US_PER_SECOND); lia.
Qed.

(** X6.  One iteration of the loop, with the reading spelled out: when the
    loop condition holds and the next poll is answered, the loop goes on
    with [running_time] set to the whole seconds between [start_dt] and
    the moment the answer arrived, taken modulo 86400; so the new
    [running_time] always lies in [0, 86400), and it is the truncated
    elapsed time exactly as long as less than a day has elapsed. *)
Theorem wait_loop_running_time
    (w : World) (self : Client) (token : string) (timeout : Z)
    (fuel : nat) (start_dt : datetime) (r r' : Response) (rt : Z)
    (s : State) :
  status_code r = 404 ->
  rt < timeout ->
  responses w (nreq s) = inl r' ->
  let elapsed := clock s + latency w (nreq s) - start_dt in
  let running_time' := (elapsed / US_PER_SECOND) mod SECONDS_PER_DAY in
  LoginFlowV2.wait_loop w self token timeout (S fuel) start_dt r rt s =
  LoginFlowV2.wait_loop w self token timeout fuel start_dt r' running_time'
    {| clock := clock s + latency w (nreq s) + 1 * US_PER_SECOND
                + oversleep w (nsleep s);
       nreq := S (nreq s); nsleep := S (nsleep s); nocs := nocs s;
       trace := trace s ++
                [EvRequest (LoginFlowV2.poll_request self token);
                 EvNow; EvSleep 1] |} /\
  0 <= running_time' < SECONDS_PER_DAY /\
  (0 <= elapsed < US_PER_DAY -> running_time' = elapsed / US_PER_SECOND) /\
  (US_PER_DAY <= elapsed -> running_time' < elapsed / US_PER_SECOND).
Proof.
  intros H404 Hrt Hr'. cbv zeta. split; [|split; [|split]].
  - rewrite wait_loop_continue.
    2:{ apply andb_true_iff. split; [apply Z.eqb_eq | apply Z.ltb_lt];
        assumption. }
    rewrite Hr', seconds_formula. reflexivity.
  - apply Z.mod_pos_bound. unfold SECONDS_PER_DAY. lia.
  - intros Hday. apply Z.mod_small. unfold US_PER_DAY, SECONDS_PER_DAY,
      US_PER_SECOND in *.
    split; [apply Z.div_pos; lia | apply Z.div_lt_upper_bound; lia].
  - intros Hday.
    pose proof (Z.mod_pos_bound
                  ((clock s + latency w (nreq s) - start_dt) / US_PER_SECOND)
                  SECONDS_PER_DAY ltac:(unfold SECONDS_PER_DAY; lia)) as Hm.
    assert (SECONDS_PER_DAY <=
            (clock s + latency w (nreq s) - start_dt) / US_PER_SECOND).
    { apply Z.div_le_lower_bound; unfold US_PER_DAY, SECONDS_PER_DAY,
        US_PER_SECOND in *; lia. }
    lia.
Qed.

(** A poll answered a day and a half after the start sets [running_time]
    to half a day. *)
Lemma wait_loop_running_time_witness :
  LoginFlowV2.wait_loop ideal_world example_client "abc" 60 1 0
    pending_response 0
    {| clock := 129600 * US_PER_SECOND; nreq := 1; nsleep := 0; nocs := 0;
       trace := [] |} =
  LoginFlowV2.wait_loop ideal_world example_client "abc" 60 0 0
    pending_response 43200
    {| clock := 129601 * US_PER_SECOND; nreq := 2; nsleep := 1; nocs := 0;
       trace := [EvRequest (LoginFlowV2.poll_request example_client "abc");
                 EvNow; EvSleep 1] |}.
Proof.
  destruct (wait_loop_running_time ideal_world example_client "abc" 60 0 0
              pending_response pending_response 0
              {| clock := 129600 * US_PER_SECOND; nreq := 1; nsleep := 0;
                 nocs := 0; trace := [] |}
              eq_refl ltac:(lia) eq_refl) as [Hstep _].
  exact Hstep.
Defined.

(** ** The wait is bounded when no iteration is too long *)

Lemma pendingb_true (w : World) (timeout : Z) (k : nat) :
  pendingb w timeout k = true <-> pending w timeout k.
Proof.
  unfold pendingb, pending. destruct (responses w k) as [r|e].
  - rewrite andb_true_iff, Z.eqb_eq, Z.ltb_lt. split.
    + intros [H1 H2]. exists r. auto.
    + intros (r' & [= <-] & H1 & H2). auto.
  - split; [discriminate|]. intros (r' & Hr' & _). discriminate Hr'.
Qed.

(** Either the run stays pending up to poll [K], or there is a first poll
    at which it does not. *)
Lemma first_not_pending (w : World) (timeout : Z) (K : nat) :
  (forall j, (j <= K)%nat -> pending w timeout j) \/
  exists k, (k <= K)%nat /\
            (forall j, (j < k)%nat -> pending w timeout j) /\
            pendingb w timeout k = false.
Proof.
  induction K as [|K [Hall|(k & Hk & Hbefore & Hnot)]].
  - destruct (pendingb w timeout 0) eqn:Hp.
    + left. intros j Hj. replace j with 0%nat by lia.
      apply pendingb_true. exact Hp.
    + right. exists 0%nat. split; [lia|]. split; [intros j Hj; lia|exact Hp].
  - destruct (pendingb w timeout (S K)) eqn:Hp.
    + left. intros j Hj. destruct (Nat.eq_dec j (S K)) as [->|Hne].
      * apply pendingb_true. exact Hp.
      * apply Hall. lia.
    + right. exists (S K). split; [lia|].
      split; [intros j Hj; apply Hall; lia | exact Hp].
  - right. exists k. split; [lia|]. split; assumption.
Qed.

(** The run ends at the first poll at which it is not pending. *)
Lemma run_ends_at (w : World) (self : Client) (token : string) (timeout : Z)
    (t0 : datetime) (k : nat) :
  (forall j, (j < k)%nat -> pending w timeout j) ->
  pendingb w timeout k = false ->
  exists out s,
    out <> OutOfFuel /\ nreq s = S k /\
    forall fuel, (k <= fuel)%nat ->
      LoginFlowV2.login_flow_wait_confirm w self token timeout fuel
        (init_state t0) = (out, s).
Proof.
  intros Hbefore Hnot. unfold pendingb in Hnot.
  destruct (responses w k) as [r|e] eqn:Hr.
  - destruct (LoginFlowV2.wait_loop w self token timeout 0 t0 r
                (running_time_at w k) (loop_state w self token t0 k))
      as [out s] eqn:Hexit.
    exists out, s.
    pose proof Hexit as Hexit'. rewrite wait_loop_exit in Hexit' by exact Hnot.
    split; [|split].
    + destruct (status_code r =? 404).
      * injection Hexit' as <- _. discriminate.
      * unfold response_json in Hexit'.
        destruct (json r); injection Hexit' as <- _; discriminate.
    + pose proof (wait_loop_exit_state w self token timeout 0 t0 r
                    (running_time_at w k) (loop_state w self token t0 k)
                    Hnot) as Hs.
      rewrite Hexit in Hs. cbn [snd] in Hs. subst s. reflexivity.
    + intros fuel Hfuel. replace fuel with (k + (fuel - k))%nat by lia.
      rewrite (pending_run w self token timeout t0 k Hbefore r Hr).
      rewrite wait_loop_exit by exact Hnot.
      rewrite <- Hexit'. reflexivity.
  - destruct (transport_error_run w self token timeout t0 k e Hbefore Hr)
      as (s & Hrun & Hn & _).
    exists (Raised e), s. split; [discriminate|]. split; [exact Hn|exact Hrun].
Qed.

Section Bounded.

Variable w : World.
Variable timeout : Z.
Variables max_latency max_oversleep : Z.
Hypothesis timeout_nonneg : 0 <= timeout.
Hypothesis latency_bounds : forall k, 0 <= latency w k <= max_latency.
Hypothesis oversleep_bounds : forall k, 0 <= oversleep w k <= max_oversleep.
Hypothesis short_iterations :
  US_PER_SECOND + max_oversleep + 2 * max_latency <=
  (SECONDS_PER_DAY - timeout) * US_PER_SECOND.

Lemma reading_below_timeout (d : Z) :
  0 <= d < US_PER_DAY ->
  seconds (datetime_sub d 0) < timeout ->
  d < timeout * US_PER_SECOND.
Proof.
  intros Hd Hsec. rewrite seconds_first_day in Hsec by exact Hd.
  unfold US_PER_SECOND in *.
  pose proof (Z.div_mod d 1000000 ltac:(lia)).
  pose proof (Z.mod_pos_bound d 1000000 ltac:(lia)). nia.
Qed.

(** While the run stays pending, its readings stay below the timeout. *)
Lemma pending_readings_below (i : nat) :
  (forall j, (j <= S i)%nat -> pending w timeout j) ->
  reading_offset w i < timeout * US_PER_SECOND.
Proof.
  induction i as [|i IH]; intros Hpend.
  - destruct (Hpend 1%nat ltac:(lia)) as (_ & _ & _ & Hrt).
    cbn [running_time_at] in Hrt. apply reading_below_timeout; [|exact Hrt].
    unfold reading_offset. cbn [poll_offset].
    pose proof (latency_bounds 0). pose proof (latency_bounds 1).
    pose proof (oversleep_bounds 0).
    unfold US_PER_DAY, SECONDS_PER_DAY, US_PER_SECOND in *. lia.
  - pose proof (IH ltac:(intros; apply Hpend; lia)) as Hprev.
    destruct (Hpend (S (S i)) ltac:(lia)) as (_ & _ & _ & Hrt).
    cbn [running_time_at] in Hrt. apply reading_below_timeout; [|exact Hrt].
    pose proof (reading_offset_lower w
                  ltac:(intros k; apply latency_bounds)
                  ltac:(intros k; apply oversleep_bounds) (S i)) as Hlow.
    assert (reading_offset w (S i) =
            reading_offset w i + 1 * US_PER_SECOND + oversleep w i
            + latency w (S (S i))) as Heq.
    { unfold reading_offset.
      change (poll_offset w (S (S i)))
        with (poll_offset w (S i) + latency w (S i) +
              (1 * US_PER_SECOND + oversleep w i)).
      lia. }
    pose proof (latency_bounds (S (S i))). pose proof (oversleep_bounds i).
    pose proof (latency_bounds 0).
    unfold US_PER_DAY, SECONDS_PER_DAY, US_PER_SECOND in *. lia.
Qed.

Lemma not_pending_forever :
  ~ (forall j, (j <= S (Z.to_nat timeout))%nat -> pending w timeout j).
Proof.
  intros Hpend.
  pose proof (pending_readings_below (Z.to_nat timeout) Hpend) as Hup.
  pose proof (reading_offset_lower w
                ltac:(intros k; apply latency_bounds)
                ltac:(intros k; apply oversleep_bounds)
                (Z.to_nat timeout)) as Hlow.
  rewrite Z2Nat.id in Hlow by exact timeout_nonneg. lia.
Qed.

End Bounded.

(** X7.  The wait is bounded when no iteration is too long.  Let the
    timeout be non-negative, every request take at most [max_latency] and
    every sleep overrun by at most [max_oversleep] microseconds, with
    [1 s + max_oversleep + 2 * max_latency <= (86400 - timeout) s] (so the
    timeout is below a day).  Then for every sequence of answers and
    transport failures the run ends within [timeout + 1] iterations of the
    loop, having sent at most [timeout + 2] polls, and more fuel does not
    change how it ends. *)
Theorem wait_confirm_bounded
    (w : World) (self : Client) (token : string) (timeout : Z)
    (t0 : datetime) (max_latency max_oversleep : Z) :
  0 <= timeout ->
  (forall k, 0 <= latency w k <= max_latency) ->
  (forall k, 0 <= oversleep w k <= max_oversleep) ->
  US_PER_SECOND + max_oversleep + 2 * max_latency <=
    (SECONDS_PER_DAY - timeout) * US_PER_SECOND ->
  exists n out s,
    Z.of_nat n <= timeout + 1 /\
    out <> OutOfFuel /\
    Z.of_nat (nreq s) <= timeout + 2 /\
    forall fuel, (n <= fuel)%nat ->
      LoginFlowV2.login_flow_wait_confirm w self token timeout fuel
        (init_state t0) = (out, s).
Proof.
  intros Ht Hlat Hos Hshort.
  destruct (first_not_pending w timeout (S (Z.to_nat timeout)))
    as [Hall|(k & Hk & Hbefore & Hnot)].
  - exfalso.
    exact (not_pending_forever w timeout max_latency max_oversleep Ht Hlat
             Hos Hshort Hall).
  - destruct (run_ends_at w self token timeout t0 k Hbefore Hnot)
      as (out & s & Hout & Hn & Hrun).
    exists k, out, s. repeat split; try assumption; lia.
Qed.

(** A minute's timeout with answers within five seconds and sleeps at most
    a tenth of a second late. *)
Lemma wait_confirm_bounded_witness :
  exists n out s,
    Z.of_nat n <= 60 + 1 /\
    out <> OutOfFuel /\
    Z.of_nat (nreq s) <= 60 + 2 /\
    forall fuel, (n <= fuel)%nat ->
      LoginFlowV2.login_flow_wait_confirm slow_world example_client "abc"
        60 fuel (init_state 0) = (out, s).
Proof.
  apply (wait_confirm_bounded slow_world example_client "abc" 60 0
           (5 * US_PER_SECOND) 100000).
  - lia.
  - intros k. simpl. unfold US_PER_SECOND. lia.
  - intros k. simpl. lia.
  - unfold US_PER_SECOND, SECONDS_PER_DAY. lia.
Defined.

(** ** How late the timeout is when the run is on schedule *)

(** Between two polls of the loop at least one second passes for every
    iteration in between. *)
Lemma poll_offset_gap (w : World) (j k : nat) :
  (forall i, 0 <= latency w i) ->
  (forall i, 0 <= oversleep w i) ->
  (j <= k)%nat ->
  poll_offset w (S j) + (Z.of_nat k - Z.of_nat j) * US_PER_SECOND <=
  poll_offset w (S k).
Proof.
  intros Hlat Hos. induction 1 as [|k Hle IH]; [lia|].
  change (poll_offset w (S (S k)))
    with (poll_offset w (S k) + latency w (S k) +
          (1 * US_PER_SECOND + oversleep w k)).
  pose proof (Hlat (S k)). pose proof (Hos k).
  unfold US_PER_SECOND in *. lia.
Qed.

(** X8.  How late the timeout is.  For [1 <= timeout < 86400], if every
    poll is answered with a 404, the clock never runs backwards, and the
    delays of the whole run (latencies and sleep overruns up to the moment
    the loop is left) add up to less than a second, then the timeout
    exception is raised after exactly [timeout + 2] polls and
    [timeout + 1] sleeps, between [timeout + 1] and [timeout + 2] seconds
    after the start. *)
Theorem wait_confirm_timeout_on_schedule_exact
    (w : World) (self : Client) (token : string) (timeout : Z)
    (t0 : datetime) :
  1 <= timeout < SECONDS_PER_DAY ->
  (forall k, exists r, responses w k = inl r /\ status_code r = 404) ->
  (forall k, 0 <= latency w k) ->
  (forall k, 0 <= oversleep w k) ->
  poll_offset w (S (S (Z.to_nat timeout))) <
    (timeout + 2) * US_PER_SECOND ->
  exists s,
    (forall fuel, (S (Z.to_nat timeout) <= fuel)%nat ->
       LoginFlowV2.login_flow_wait_confirm w self token timeout fuel
         (init_state t0) =
       (Raised (NextCloudLoginFlowTimeout LoginFlowV2.timeout_message), s)) /\
    Z.of_nat (nreq s) = timeout + 2 /\
    Z.of_nat (nsleep s) = timeout + 1 /\
    count_requests (trace s) = nreq s /\
    count_sleeps (trace s) = nsleep s /\
    (timeout + 1) * US_PER_SECOND <= clock s - t0 < (timeout + 2) * US_PER_SECOND.
Proof.
  intros Ht H404 Hlat Hos Hdelay.
  set (T := Z.to_nat timeout) in *.
  assert (Z.of_nat T = timeout) as HT by (subst T; lia).
  assert (forall k, (k <= T)%nat ->
            reading_offset w k < (Z.of_nat k + 1) * US_PER_SECOND) as Hsched.
  { intros k Hk.
    pose proof (poll_offset_gap w (S k) (S T) Hlat Hos ltac:(lia)) as Hgap.
    assert (reading_offset w k + 1 * US_PER_SECOND <=
            poll_offset w (S (S k))) as Hsleep.
    { unfold reading_offset.
      change (poll_offset w (S (S k)))
        with (poll_offset w (S k) + latency w (S k) +
              (1 * US_PER_SECOND + oversleep w k)).
      pose proof (Hos k). lia. }
    unfold US_PER_SECOND in *. lia. }
  assert (forall k, (k <= T)%nat -> running_time_at w (S k) = Z.of_nat k)
    as Hrt.
  { intros k Hk. apply running_time_on_schedule; try assumption.
    - lia.
    - apply Hsched. exact Hk. }
  assert (forall j, (j < S T)%nat -> pending w timeout j) as Hpend.
  { intros j Hj. destruct (H404 j) as (r & Hr & Hs).
    exists r. split; [exact Hr|]. split; [exact Hs|].
    destruct j as [|i]; [cbn; lia|]. rewrite Hrt by lia. lia. }
  destruct (H404 (S T)) as (rK & HrK & HsK).
  exists (loop_state w self token t0 (S T)). split; [|split; [|split; [|split; [|split]]]].
  - intros fuel Hfuel. replace fuel with (S T + (fuel - S T))%nat by lia.
    rewrite (pending_run w self token timeout t0 (S T) Hpend rK HrK).
    rewrite wait_loop_exit.
    + apply Z.eqb_eq in HsK. rewrite HsK. reflexivity.
    + apply andb_false_iff. right. apply Z.ltb_ge. rewrite Hrt by lia. lia.
  - cbn [loop_state nreq]. lia.
  - cbn [loop_state nsleep]. lia.
  - cbn [loop_state nreq trace]. apply count_requests_loop_trace.
  - cbn [loop_state nsleep trace]. apply count_sleeps_loop_trace.
  - cbn [loop_state clock].
    pose proof (poll_offset_lower w Hlat Hos (S T)) as Hlow.
    unfold US_PER_SECOND in *. lia.
Qed.

(** Instant answers and exact sleeps: a three-second timeout takes five
    polls and four seconds. *)
Lemma wait_confirm_timeout_on_schedule_exact_witness :
  exists s,
    LoginFlowV2.login_flow_wait_confirm ideal_world example_client "abc" 3
      4 (init_state 0) =
    (Raised (NextCloudLoginFlowTimeout LoginFlowV2.timeout_message), s) /\
    Z.of_nat (nreq s) = 3 + 2 /\
    (3 + 1) * US_PER_SECOND <= clock s - 0 < (3 + 2) * US_PER_SECOND.
Proof.
  destruct (wait_confirm_timeout_on_schedule_exact ideal_world
              example_client "abc" 3 0)
    as (s & Hrun & Hn & _ & _ & _ & Hclock).
  - unfold SECONDS_PER_DAY. lia.
  - intros k. exists pending_response. split; reflexivity.
  - intros k. simpl. lia.
  - intros k. simpl. lia.
  - vm_compute. reflexivity.
  - exists s. split; [apply Hrun; simpl; lia|]. split; assumption.
Defined.

(** ** Starting from any state *)

Lemma wait_loop_rebase (w : World) (self : Client) (token : string)
    (timeout : Z) (s : State) (fuel : nat) :
  forall start_dt r rt s0,
    LoginFlowV2.wait_loop w self token timeout fuel start_dt r rt
      (rebase s s0) =
    (fst (LoginFlowV2.wait_loop (shift_world w s) self token timeout fuel
            start_dt r rt s0),
     rebase s
       (snd (LoginFlowV2.wait_loop (shift_world w s) self token timeout fuel
               start_dt r rt s0))).
Proof.
  induction fuel as [|fuel IH]; intros start_dt r rt s0.
  all: destruct ((status_code r =? 404) && (rt <? timeout)) eqn:Hcond.
  - rewrite !wait_loop_out_of_fuel by exact Hcond. reflexivity.
  - rewrite !wait_loop_exit by exact Hcond.
    destruct (status_code r =? 404); [reflexivity|].
    unfold response_json. destruct (json r); reflexivity.
  - rewrite !wait_loop_continue by exact Hcond.
    cbn [rebase shift_world nreq nsleep nocs clock trace responses latency
         oversleep].
    destruct (responses w (nreq s + nreq s0)) as [r'|e].
    + rewrite <- IH. f_equal. unfold rebase.
      cbn [nreq nsleep nocs clock trace].
      rewrite !Nat.add_succ_r, <- app_assoc. reflexivity.
    + cbn [fst snd]. f_equal. unfold rebase.
      cbn [nreq nsleep nocs clock trace].
      rewrite !Nat.add_succ_r, <- app_assoc. reflexivity.
  - rewrite !wait_loop_exit by exact Hcond.
    destruct (status_code r =? 404); [reflexivity|].
    unfold response_json. destruct (json r); reflexivity.
Qed.

(** X9.  [login_flow_wait_confirm] keeps nothing between calls.  Started
    in any state [s] (after any number of earlier requests, sleeps and OCS
    queries), it ends as it would from scratch at the same clock in the
    environment of the answers, latencies and overruns still to come; the
    earlier trace stays in front and the counters add up. *)
Theorem wait_confirm_from_any_state
    (w : World) (self : Client) (token : string) (timeout : Z)
    (fuel : nat) (s : State) :
  LoginFlowV2.login_flow_wait_confirm w self token timeout fuel s =
  (fst (LoginFlowV2.login_flow_wait_confirm (shift_world w s) self token
          timeout fuel (init_state (clock s))),
   rebase s
     (snd (LoginFlowV2.login_flow_wait_confirm (shift_world w s) self token
             timeout fuel (init_state (clock s))))).
Proof.
  unfold LoginFlowV2.login_flow_wait_confirm, bind, now, request.
  cbn [init_state shift_world nreq nsleep nocs clock trace responses latency
       app].
  rewrite !Nat.add_0_r.
  destruct (responses w (nreq s)) as [r0|e]; cbn [of_sum ret raise].
  - rewrite <- wait_loop_rebase. f_equal. unfold rebase.
    cbn [nreq nsleep nocs clock trace].
    rewrite !Nat.add_0_r, Nat.add_1_r, <- app_assoc. reflexivity.
  - cbn [fst snd]. f_equal. unfold rebase.
    cbn [nreq nsleep nocs clock trace].
    rewrite !Nat.add_0_r, Nat.add_1_r, <- app_assoc. reflexivity.
Qed.

(** ** Distinct calls of the catalog are distinct on the wire *)

Lemma append_inj_l (s x y : string) : s +:+ x = s +:+ y -> x = y.
Proof.
  induction s as [|c s IH]; cbn; [auto|]. intros [= H]. auto.
Qed.

Lemma slash_free_uint (d : Decimal.uint) :
  slash_free (NilEmpty.string_of_uint d) = true.
Proof. induction d; cbn; auto. Qed.

Lemma slash_free_str_of_int (n : Z) : slash_free (str_of_int n) = true.
Proof.
  unfold str_of_int, NilZero.string_of_int, NilZero.string_of_uint.
  destruct (Z.to_int n) as [d|d]; destruct d; cbn; auto using slash_free_uint.
Qed.

Lemma str_of_int_inj (n m : Z) : str_of_int n = str_of_int m -> n = m.
Proof.
  unfold str_of_int. intros Heq.
  assert (forall z, Z.to_int z <> Decimal.Pos Decimal.Nil /\
                    Z.to_int z <> Decimal.Neg Decimal.Nil) as Hnn.
  { intros [|p|p]; cbn; split; try discriminate;
      intros [= H]; exact (DecimalPos.Unsigned.to_uint_nonnil p H). }
  apply DecimalZ.to_int_inj.
  assert (Some (Z.to_int n) = Some (Z.to_int m)) as [= H]; [|exact H].
  rewrite <- (NilZero.isi (Z.to_int n)) by apply Hnn.
  rewrite <- (NilZero.isi (Z.to_int m)) by apply Hnn.
  rewrite Heq. reflexivity.
Qed.

(** A slash-free head is cut off at the first ["/"]. *)
Lemma split_at_slash (a b x y : string) :
  slash_free a = true -> slash_free b = true ->
  a +:+ String slash x = b +:+ String slash y -> a = b /\ x = y.
Proof.
  revert b. induction a as [|c a IH]; intros [|c' b] Ha Hb Heq; cbn in *.
  - injection Heq as ->. auto.
  - injection Heq as <- _. cbn in Hb. discriminate Hb.
  - injection Heq as -> _. cbn in Ha. discriminate Ha.
  - injection Heq as -> Heq.
    apply andb_true_iff in Ha as [_ Ha]. apply andb_true_iff in Hb as [_ Hb].
    destruct (IH b Ha Hb Heq) as [-> ->]. auto.
Qed.

Lemma id_with_suffix_inj (n m : Z) (x y : string) :
  str_of_int n +:+ String slash x = str_of_int m +:+ String slash y ->
  n = m /\ x = y.
Proof.
  intros Heq.
  destruct (split_at_slash _ _ _ _ (slash_free_str_of_int n)
              (slash_free_str_of_int m) Heq) as [Hn Hx].
  split; [apply str_of_int_inj; exact Hn | exact Hx].
Qed.

Lemma id_not_with_suffix (n m : Z) (x : string) :
  str_of_int n <> str_of_int m +:+ String slash x.
Proof.
  intros Heq. pose proof (slash_free_str_of_int n) as Hn. rewrite Heq in Hn.
  pose proof (slash_free_str_of_int m) as Hm. clear Heq.
  induction (str_of_int m) as [|c s IH]; cbn in *; [discriminate Hn|].
  apply andb_true_iff in Hn as [_ Hn]. apply andb_true_iff in Hm as [_ Hm].
  auto.
Qed.

Lemma call_issues (w : World) (op : operation) :
  issues_exactly w (call w op) (wire_query op).
Proof.
  intros s. destruct op as [| | | | | | ? [|] | ? ? ? [|] | | |]; reflexivity.
Qed.

Lemma issues_exactly_unique (w : World) (m : M JSON) (q q' : OcsQuery) :
  issues_exactly w m q -> issues_exactly w m q' -> q = q'.
Proof.
  intros Hq Hq'. pose proof (Hq (init_state 0)) as H.
  rewrite (Hq' (init_state 0)) in H. apply (f_equal snd) in H.
  unfold of_sum, ret, raise in H.
  destruct (ocs_replies w (nocs (init_state 0))); cbn in H;
    injection H as H; congruence.
Qed.

Lemma wire_query_inj (op op' : operation) :
  wire_query op = wire_query op' -> op = op'.
Proof.
  unfold wire_query. intros H. injection H as Hm Hp Hb.
  apply append_inj_l in Hp.
  destruct op, op'; cbn [table_method] in Hm; try discriminate Hm;
    cbn [table_body] in Hb; try discriminate Hb;
    cbn [table_path] in Hp.
  all: try (exfalso; cbn in Hp; discriminate Hp).
  all: try apply append_inj_l in Hp.
  - reflexivity.
  - congruence.
  - apply str_of_int_inj in Hp. congruence.
  - apply str_of_int_inj in Hp. congruence.
  - exfalso.
    exact (id_not_with_suffix id id0 ("groups/" +:+ group) Hp).
  - apply (id_with_suffix_inj _ _ "groups" "groups") in Hp as [-> _].
    congruence.
  - exfalso. symmetry in Hp.
    exact (id_not_with_suffix id0 id ("groups/" +:+ group) Hp).
  - apply (id_with_suffix_inj _ _ ("groups/" +:+ group)
             ("groups/" +:+ group0)) in Hp as [-> Hg].
    apply append_inj_l in Hg. congruence.
  - apply (id_with_suffix_inj _ _ "acl" "acl") in Hp as [-> _].
    destruct enable, enable0; try reflexivity; discriminate Hb.
  - apply (id_with_suffix_inj _ _ "manageACL" "manageACL") in Hp as [-> _].
    congruence.
  - apply (id_with_suffix_inj _ _ ("groups/" +:+ group)
             ("groups/" +:+ group0)) in Hp as [-> Hg].
    apply append_inj_l in Hg. subst group0.
    destruct permissions as [v], permissions0 as [v0].
    cbn [Permissions.value] in Hb. congruence.
  - apply (id_with_suffix_inj _ _ "quota" "quota") in Hp as [-> _].
    congruence.
  - apply (id_with_suffix_inj _ _ "mountpoint" "mountpoint") in Hp as [-> _].
    congruence.
Qed.

(** X10.  The request identifies the call: two calls of the catalog that
    hand the same method, path and body to [ocs_query] are the same
    operation with the same arguments (folder ids are written in decimal
    and contain no ["/"], so no path can be read in two ways). *)
Theorem catalog_calls_distinct
    (w : World) (op op' : operation) (q : OcsQuery) :
  issues_exactly w (call w op) q ->
  issues_exactly w (call w op') q ->
  op = op'.
Proof.
  intros Hq Hq'. apply wire_query_inj.
  rewrite (issues_exactly_unique w _ _ _ (call_issues w op) Hq).
  rewrite (issues_exactly_unique w _ _ _ (call_issues w op') Hq').
  reflexivity.
Qed.

Lemma catalog_calls_distinct_witness :
  SetQuota 5 (-3) = SetQuota 5 (-3).
Proof.
  apply (catalog_calls_distinct ideal_world (SetQuota 5 (-3))
           (SetQuota 5 (-3))
           {| ocs_method := "POST";
              ocs_sub := "/apps/groupfolders/folders/5/quota";
              ocs_data := Some [("quota", JInt (-3))] |}).
  - intros s. reflexivity.
  - intros s. reflexivity.
Defined.

(** X11.  Revoking the app password is one OCS query, a DELETE on
    [/ocs/v2.php/core/apppassword] without a body, whatever the endpoint,
    and no call of the group-folder catalog issues that query. *)
Theorem destroy_login_token_query (w : World) (self : Client) :
  issues_exactly w (LoginFlowV2.destroy_login_token w)
    {| ocs_method := "DELETE";
       ocs_sub := "/ocs/v2.php/core/apppassword";
       ocs_data := None |} /\
  forall op q,
    issues_exactly w (LoginFlowV2.destroy_login_token w) q ->
    ~ issues_exactly w (call w op) q.
Proof.
  assert (issues_exactly w (LoginFlowV2.destroy_login_token w)
            {| ocs_method := "DELETE";
               ocs_sub := "/ocs/v2.php/core/apppassword";
               ocs_data := None |}) as Hd by (intros s; reflexivity).
  split; [exact Hd|].
  intros op q Hq Hop.
  pose proof (issues_exactly_unique w _ _ _ Hd Hq) as <-.
  pose proof (issues_exactly_unique w _ _ _ (call_issues w op) Hop) as Heq.
  unfold wire_query in Heq. injection Heq as _ Hp _.
  cbn in Hp. discriminate Hp.
Qed.

(** ** The permission flags as a code for sets *)

Lemma lor_below_32 (a b : Z) :
  0 <= a < 32 -> 0 <= b < 32 -> 0 <= Z.lor a b < 32.
Proof.
  intros Ha Hb.
  assert (0 <= Z.lor a b) as Hnn by (apply Z.lor_nonneg; lia).
  split; [exact Hnn|].
  assert (forall x, 0 <= x < 32 -> Z.log2 x < 5) as Hlog.
  { intros x Hx. destruct (Z.eq_dec x 0) as [->|Hne]; [cbn; lia|].
    apply Z.log2_lt_pow2; [lia|]. change (2 ^ 5) with 32. lia. }
  destruct (Z.eq_dec (Z.lor a b) 0) as [->|Hne]; [lia|].
  change 32 with (2 ^ 5). apply Z.log2_lt_pow2; [lia|].
  rewrite Z.log2_lor by lia.
  pose proof (Hlog a Ha). pose proof (Hlog b Hb). lia.
Qed.

(** X12.  The integer is a faithful code for the set of flags.  Every
    combination of members has a value from 0 to 31; every instance whose
    value lies in that range is the combination of exactly the members it
    contains (taking it apart and or-ing the parts gives it back); and an
    instance outside that range is not the combination of its members. *)
Theorem permissions_round_trip :
  (forall l : list Permissions.name,
     0 <= Permissions.value (Permissions.combine l) < 32) /\
  (forall p : Permissions.t,
     0 <= Permissions.value p < 32 ->
     Permissions.combine
       (List.filter (Permissions.contains p) Permissions.all_names) = p) /\
  (forall p : Permissions.t,
     Permissions.combine
       (List.filter (Permissions.contains p) Permissions.all_names) = p ->
     0 <= Permissions.value p < 32).
Proof.
  assert (forall l : list Permissions.name,
            0 <= Permissions.value (Permissions.combine l) < 32) as Hrange.
  { induction l as [|x l IH]; [cbn; lia|].
    cbn [Permissions.combine fold_right].
    change (fold_right _ _ l) with (Permissions.combine l).
    cbn [Permissions.or Permissions.value].
    apply lor_below_32; [|exact IH]. destruct x; cbn; lia. }
  split; [exact Hrange|]. split.
  - intros [v]. cbn [Permissions.value]. intros Hv.
    assert (exists n, (n < 32)%nat /\ v = Z.of_nat n) as (n & Hn & ->)
      by (exists (Z.to_nat v); lia).
    do 32 (destruct n as [|n]; [vm_compute; reflexivity|]). lia.
  - intros p Hp. rewrite <- Hp. apply Hrange.
Qed.

Lemma permissions_round_trip_witness :
  Permissions.combine
    (List.filter
       (Permissions.contains
          (Permissions.or Permissions.read Permissions.share))
       Permissions.all_names) =
  Permissions.or Permissions.read Permissions.share.
Proof.
  destruct permissions_round_trip as (_ & Hback & _).
  apply Hback. change (0 <= 17 < 32). lia.
Defined.

(** ** The timeout is not much late either *)

(** X13.  How late the timeout can be.  Under the bounds of X7 (the
    timeout is non-negative, requests take at most [max_latency], sleeps
    overrun by at most [max_oversleep], and
    [1 s + max_oversleep + 2 * max_latency <= (86400 - timeout) s]), a run
    that ends on a 404 answer, that is with the timeout exception of the
    loop, ends less than [timeout + 2] seconds plus two overruns and two
    latencies after the start. *)
Theorem wait_confirm_timeout_not_late
    (w : World) (self : Client) (token : string) (timeout : Z)
    (fuel : nat) (t0 : datetime) (max_latency max_oversleep : Z)
    (out : outcome JSON) (s : State) (r : Response) :
  0 <= timeout ->
  (forall k, 0 <= latency w k <= max_latency) ->
  (forall k, 0 <= oversleep w k <= max_oversleep) ->
  US_PER_SECOND + max_oversleep + 2 * max_latency <=
    (SECONDS_PER_DAY - timeout) * US_PER_SECOND ->
  LoginFlowV2.login_flow_wait_confirm w self token timeout fuel
    (init_state t0) = (out, s) ->
  out <> OutOfFuel ->
  responses w (pred (nreq s)) = inl r ->
  status_code r = 404 ->
  clock s - t0 <
    (timeout + 2) * US_PER_SECOND + 2 * max_oversleep + 2 * max_latency.
Proof.
  intros Ht Hlat Hos Hshort Hrun Hout Hr H404.
  destruct (first_not_pending w timeout (S (Z.to_nat timeout)))
    as [Hall|(k & Hk & Hbefore & Hnot)].
  { exfalso.
    exact (not_pending_forever w timeout max_latency max_oversleep Ht Hlat
             Hos Hshort Hall). }
  assert (k <= fuel)%nat as Hfuel.
  { destruct (Nat.le_gt_cases k fuel) as [Hle|Hgt]; [exact Hle|].
    exfalso. apply Hout.
    pose proof (pending_out_of_fuel w self token timeout t0 fuel
                  ltac:(intros j Hj; apply Hbefore; lia)) as Hoof.
    rewrite Hrun in Hoof. exact Hoof. }
  unfold pendingb in Hnot.
  destruct (responses w k) as [rk|e] eqn:Hrk.
  - replace fuel with (k + (fuel - k))%nat in Hrun by lia.
    rewrite (pending_run w self token timeout t0 k Hbefore rk Hrk) in Hrun.
    pose proof (wait_loop_exit_state w self token timeout (fuel - k) t0 rk
                  (running_time_at w k) (loop_state w self token t0 k) Hnot)
      as Hs.
    rewrite Hrun in Hs. cbn [snd] in Hs. subst s.
    cbn [loop_state nreq Nat.pred] in Hr. rewrite Hrk in Hr.
    injection Hr as <-. cbn [loop_state clock].
    pose proof (Hlat 0%nat) as Hl0. pose proof (Hos 0%nat) as Ho0.
    destruct k as [|[|k]].
    + cbn [poll_offset]. unfold US_PER_SECOND in *. lia.
    + cbn [poll_offset]. pose proof (Hlat 1%nat).
      unfold US_PER_SECOND in *. lia.
    + pose proof (pending_readings_below w timeout max_latency max_oversleep
                    Ht Hlat Hos Hshort k
                    ltac:(intros j Hj; apply Hbefore; lia)) as Hprev.
      unfold reading_offset in Hprev.
      change (poll_offset w (S (S (S k))))
        with (poll_offset w (S (S k)) + latency w (S (S k)) +
              (1 * US_PER_SECOND + oversleep w (S k))).
      change (poll_offset w (S (S k)))
        with (poll_offset w (S k) + latency w (S k) +
              (1 * US_PER_SECOND + oversleep w k)).
      pose proof (Hlat (S (S k))). pose proof (Hos k). pose proof (Hos (S k)).
      unfold US_PER_SECOND in *. lia.
  - exfalso.
    destruct (transport_error_run w self token timeout t0 k e Hbefore Hrk)
      as (s' & Hrun' & Hn & _).
    rewrite (Hrun' fuel Hfuel) in Hrun. injection Hrun as _ <-.
    rewrite Hn in Hr. cbn [Nat.pred] in Hr. rewrite Hrk in Hr.
    discriminate Hr.
Qed.

Lemma wait_confirm_timeout_not_late_witness :
  clock (loop_state slow_world example_client "abc" 0 1) - 0 <
  (10 + 2) * US_PER_SECOND + 2 * 0 + 2 * (5 * US_PER_SECOND).
Proof.
  assert (LoginFlowV2.login_flow_wait_confirm slow_world example_client
            "abc" 10 1 (init_state 0) =
          (Raised (NextCloudLoginFlowTimeout LoginFlowV2.timeout_message),
           loop_state slow_world example_client "abc" 0 1)) as Hrun
    by (vm_compute; reflexivity).
  apply (wait_confirm_timeout_not_late slow_world example_client "abc" 10
           1 0 (5 * US_PER_SECOND) 0
           (Raised (NextCloudLoginFlowTimeout LoginFlowV2.timeout_message))
           (loop_state slow_world example_client "abc" 0 1)
           pending_response).
  - lia.
  - intros k. simpl. unfold US_PER_SECOND. lia.
  - intros k. simpl. lia.
  - unfold US_PER_SECOND, SECONDS_PER_DAY. lia.
  - exact Hrun.
  - discriminate.
  - reflexivity.
  - reflexivity.
Defined.

(** ** Instances of the statements with a condition inside *)

Lemma destroy_login_token_query_witness :
  ~ issues_exactly ideal_world (call ideal_world ListFolders)
      {| ocs_method := "DELETE";
         ocs_sub := "/ocs/v2.php/core/apppassword";
         ocs_data := None |}.
Proof.
  destruct (destroy_login_token_query ideal_world example_client)
    as [Hd Hnever].
  apply Hnever. exact Hd.
Defined.

(** ** The answers decide how the run ends *)

(** C3, as amended.  Let the run be pending up to poll [k] (every earlier
    poll answered with a 404 while time was left) and let poll [k] be
    answered by [self.request] with [r].  If the status of [r] is anything
    other than 404, in the 2xx range or not, the polling ends there: with
    fuel for [k] iterations the run ends with [response.json()] of [r]
    (its parsed body when there is one, never an error carrying the
    status) after exactly [k + 1] requests.  If the status is 404 and time
    is left, the poll is tried again: the trace goes on with a further
    poll request. *)
Theorem wait_confirm_only_404_retried
    (w : World) (self : Client) (token : string) (timeout : Z)
    (t0 : datetime) (k : nat) (r : Response) :
  (forall j, (j < k)%nat -> pending w timeout j) ->
  responses w k = inl r ->
  (status_code r <> 404 ->
   exists s,
     nreq s = S k /\ count_requests (trace s) = S k /\
     (forall fuel, (k <= fuel)%nat ->
        LoginFlowV2.login_flow_wait_confirm w self token timeout fuel
          (init_state t0) = response_json r s) /\
     (forall body, json r = Some body ->
        forall fuel, (k <= fuel)%nat ->
          LoginFlowV2.login_flow_wait_confirm w self token timeout fuel
            (init_state t0) = (Returned body, s))) /\
  (status_code r = 404 -> running_time_at w k < timeout ->
   forall fuel, (S k <= fuel)%nat ->
   exists rest,
     trace (snd (LoginFlowV2.login_flow_wait_confirm w self token timeout
                   fuel (init_state t0))) =
     loop_trace self token k ++
     EvRequest (LoginFlowV2.poll_request self token) :: rest /\
     (S (S k) <=
      count_requests
        (trace (snd (LoginFlowV2.login_flow_wait_confirm w self token
                       timeout fuel (init_state t0)))))%nat).
Proof.
  intros Hpend Hr. split.
  - intros Hs. exists (loop_state w self token t0 k).
    assert (forall fuel, (k <= fuel)%nat ->
              LoginFlowV2.login_flow_wait_confirm w self token timeout fuel
                (init_state t0) =
              response_json r (loop_state w self token t0 k)) as Hrun.
    { intros fuel Hfuel. replace fuel with (k + (fuel - k))%nat by lia.
      rewrite (pending_run w self token timeout t0 k Hpend r Hr).
      apply wait_loop_exit_other. exact Hs. }
    split; [reflexivity|]. split; [apply count_requests_loop_trace|].
    split; [exact Hrun|].
    intros body Hbody fuel Hfuel. rewrite (Hrun fuel Hfuel).
    unfold response_json. rewrite Hbody. reflexivity.
  - intros H404 Hrt fuel Hfuel.
    replace fuel with (k + S (fuel - S k))%nat by lia.
    rewrite (pending_run w self token timeout t0 k Hpend r Hr).
    rewrite wait_loop_continue.
    2:{ apply andb_true_iff. split; [apply Z.eqb_eq | apply Z.ltb_lt];
        assumption. }
    cbn [loop_state nreq nsleep clock trace nocs].
    destruct (responses w (S k)) as [r'|e].
    + match goal with
      | |- context [LoginFlowV2.wait_loop _ _ _ _ ?f ?a ?b ?c ?d] =>
          destruct (wait_loop_trace_extends w self token timeout f a b c d)
            as [rest Hrest]
      end.
      cbn [trace] in Hrest. exists ([EvNow; EvSleep 1] ++ rest).
      rewrite Hrest. rewrite <- !app_assoc. split; [reflexivity|].
      rewrite !count_requests_app, count_requests_loop_trace. cbn. lia.
    + exists []. cbn [snd trace]. split; [reflexivity|].
      rewrite count_requests_app, count_requests_loop_trace. cbn. lia.
Qed.

(** A pending answer, then a 500 with a JSON body: its body is returned
    after two requests. *)
Lemma wait_confirm_only_404_retried_witness :
  exists s,
    nreq s = 2%nat /\
    LoginFlowV2.login_flow_wait_confirm pending_then_error_world
      example_client "abc" 60 1 (init_state 0) = (Returned error_body, s).
Proof.
  destruct (wait_confirm_only_404_retried pending_then_error_world
              example_client "abc" 60 0 1
              {| status_code := 500; json := Some error_body |})
    as [Hother _].
  - intros j Hj. exists pending_response.
    destruct j as [|j]; [|lia].
    split; [reflexivity|]. split; [reflexivity|]. vm_compute. reflexivity.
  - reflexivity.
  - destruct (Hother ltac:(simpl; lia)) as (s & Hn & _ & _ & Hbody).
    exists s. split; [exact Hn|]. apply (Hbody error_body eq_refl). lia.
Defined.

(** C6.  Let the run be pending up to poll [k] and let poll [k] be
    answered with [r], the loop condition failing after it (the status is
    not 404, or no time is left).  Then poll [k] is the last one, and with
    fuel for [k] iterations the run ends: it raises the timeout exception
    when the status of [r] is 404 and ends with [response.json()] of [r]
    otherwise.  So the timeout is raised if and only if the last answer is
    a 404, and an answer that is not a 404 is returned even when the
    timeout has been reached by then. *)
Theorem wait_confirm_ends_by_last_answer
    (w : World) (self : Client) (token : string) (timeout : Z)
    (t0 : datetime) (k : nat) (r : Response) :
  (forall j, (j < k)%nat -> pending w timeout j) ->
  responses w k = inl r ->
  status_code r <> 404 \/ timeout <= running_time_at w k ->
  exists s,
    nreq s = S k /\
    count_requests (trace s) = S k /\
    clock s = t0 + poll_offset w (S k) /\
    (forall fuel, (k <= fuel)%nat ->
       LoginFlowV2.login_flow_wait_confirm w self token timeout fuel
         (init_state t0) =
       if status_code r =? 404
       then (Raised (NextCloudLoginFlowTimeout LoginFlowV2.timeout_message),
             s)
       else response_json r s) /\
    (forall fuel, (k <= fuel)%nat ->
       (fst (LoginFlowV2.login_flow_wait_confirm w self token timeout fuel
               (init_state t0)) =
        Raised (NextCloudLoginFlowTimeout LoginFlowV2.timeout_message) <->
        status_code r = 404)) /\
    (status_code r <> 404 ->
     forall body, json r = Some body ->
     forall fuel, (k <= fuel)%nat ->
       LoginFlowV2.login_flow_wait_confirm w self token timeout fuel
         (init_state t0) = (Returned body, s)).
Proof.
  intros Hpend Hr Hleft.
  assert ((status_code r =? 404) && (running_time_at w k <? timeout) = false)
    as Hcond.
  { apply andb_false_iff. destruct Hleft as [Hs|Ht].
    - left. apply Z.eqb_neq. exact Hs.
    - right. apply Z.ltb_ge. exact Ht. }
  assert (forall fuel, (k <= fuel)%nat ->
            LoginFlowV2.login_flow_wait_confirm w self token timeout fuel
              (init_state t0) =
            if status_code r =? 404
            then (Raised (NextCloudLoginFlowTimeout
                            LoginFlowV2.timeout_message),
                  loop_state w self token t0 k)
            else response_json r (loop_state w self token t0 k)) as Hrun.
  { intros fuel Hfuel. replace fuel with (k + (fuel - k))%nat by lia.
    rewrite (pending_run w self token timeout t0 k Hpend r Hr).
    apply wait_loop_exit. exact Hcond. }
  exists (loop_state w self token t0 k).
  split; [reflexivity|]. split; [apply count_requests_loop_trace|].
  split; [reflexivity|]. split; [exact Hrun|]. split.
  - intros fuel Hfuel. rewrite (Hrun fuel Hfuel).
    destruct (Z.eqb_spec (status_code r) 404) as [H404|H404].
    + split; [intros _; exact H404 | reflexivity].
    + split; [|intros H; contradiction].
      intros Habs. exfalso.
      exact (response_json_not_timeout r (loop_state w self token t0 k)
               LoginFlowV2.timeout_message Habs).
  - intros Hs body Hbody fuel Hfuel. rewrite (Hrun fuel Hfuel).
    apply Z.eqb_neq in Hs. rewrite Hs. unfold response_json.
    rewrite Hbody. reflexivity.
Qed.

(** The credential arrives five seconds into a one-second timeout, and is
    returned all the same, six seconds after the start. *)
Lemma wait_confirm_ends_by_last_answer_witness :
  exists s,
    1 * US_PER_SECOND <= clock s - 0 /\
    LoginFlowV2.login_flow_wait_confirm late_world example_client "abc" 1 1
      (init_state 0) = (Returned app_credential, s).
Proof.
  destruct (wait_confirm_ends_by_last_answer late_world example_client
              "abc" 1 0 1
              {| status_code := 200; json := Some app_credential |})
    as (s & _ & _ & Hclock & _ & _ & Hbody).
  - intros j Hj. exists pending_response.
    destruct j as [|j]; [|lia].
    split; [reflexivity|]. split; [reflexivity|]. vm_compute. reflexivity.
  - reflexivity.
  - left. simpl. lia.
  - exists s. split.
    + rewrite Hclock. vm_compute. discriminate.
    + apply (Hbody ltac:(simpl; lia) app_credential eq_refl). lia.
Defined.

(** ** The order of polls and sleeps *)

Lemma concat_repeat_snoc {A : Type} (b : list A) (n : nat) :
  List.concat (List.repeat b n) ++ b = b ++ List.concat (List.repeat b n).
Proof.
  induction n as [|n IH]; cbn [List.repeat List.concat].
  - rewrite app_nil_r. reflexivity.
  - rewrite <- app_assoc, IH. reflexivity.
Qed.

Lemma loop_trace_blocks (self : Client) (token : string) (n : nat) :
  loop_trace self token n =
  [EvNow; EvRequest (LoginFlowV2.poll_request self token)] ++
  List.concat (List.repeat (poll_block self token) n).
Proof.
  induction n as [|n IH]; [reflexivity|].
  cbn [loop_trace List.repeat List.concat]. rewrite IH.
  change [EvRequest (LoginFlowV2.poll_request self token); EvNow; EvSleep 1]
    with (poll_block self token).
  rewrite <- app_assoc, concat_repeat_snoc. reflexivity.
Qed.

Lemma wait_loop_trace_shape (w : World) (self : Client) (token : string)
    (timeout : Z) (fuel : nat) :
  forall start_dt r rt s n,
    trace s = loop_trace self token n ->
    nreq s = S n -> nsleep s = n ->
    (exists r0, responses w n = inl r0) ->
    exists n',
      (trace (snd (LoginFlowV2.wait_loop w self token timeout fuel start_dt
                     r rt s)) = loop_trace self token n' /\
       nreq (snd (LoginFlowV2.wait_loop w self token timeout fuel start_dt
                    r rt s)) = S n' /\
       nsleep (snd (LoginFlowV2.wait_loop w self token timeout fuel start_dt
                      r rt s)) = n' /\
       exists r', responses w n' = inl r') \/
      (trace (snd (LoginFlowV2.wait_loop w self token timeout fuel start_dt
                     r rt s)) =
       loop_trace self token n' ++
       [EvRequest (LoginFlowV2.poll_request self token)] /\
       nreq (snd (LoginFlowV2.wait_loop w self token timeout fuel start_dt
                    r rt s)) = S (S n') /\
       nsleep (snd (LoginFlowV2.wait_loop w self token timeout fuel start_dt
                      r rt s)) = n' /\
       exists e, responses w (S n') = inr e /\
                 fst (LoginFlowV2.wait_loop w self token timeout fuel
                        start_dt r rt s) = Raised e).
Proof.
  induction fuel as [|fuel IH]; intros start_dt r rt s n Htr Hn Hsl Hans.
  all: destruct ((status_code r =? 404) && (rt <? timeout)) eqn:Hcond;
    [|rewrite wait_loop_exit_state by exact Hcond;
      exists n; left; auto].
  - rewrite wait_loop_out_of_fuel by exact Hcond. cbn [snd].
    exists n. left. auto.
  - rewrite wait_loop_continue by exact Hcond.
    destruct (responses w (nreq s)) as [r1|e] eqn:Hr1; rewrite Hn in Hr1.
    + apply (IH _ _ _ _ (S n)); cbn [trace nreq nsleep].
      * rewrite Htr. reflexivity.
      * rewrite Hn. reflexivity.
      * rewrite Hsl. reflexivity.
      * exists r1. exact Hr1.
    + exists n. right. cbn [snd fst trace nreq nsleep].
      rewrite Htr, Hn, Hsl. repeat split. exists e. auto.
Qed.

(** X2.  The order of polls and sleeps in every run of
    [login_flow_wait_confirm], finished or not.  After the reading of the
    start time and the first poll, the trace is a sequence of whole
    iterations, each one the poll, then the clock reading, then the
    one-second sleep: every poll after the first is followed by a sleep,
    also the one whose answer ends the loop, so a confirmation received
    inside the loop is returned only after one more sleep.  The only
    exception is a poll on which the transport raised: it ends the trace,
    with no reading and no sleep after it, and its exception is the
    outcome. *)
Theorem wait_confirm_one_sleep_per_later_poll
    (w : World) (self : Client) (token : string) (timeout : Z)
    (fuel : nat) (t0 : datetime) :
  let poll := EvRequest (LoginFlowV2.poll_request self token) in
  let run :=
    LoginFlowV2.login_flow_wait_confirm w self token timeout fuel
      (init_state t0) in
  exists n,
    (trace (snd run) =
     [EvNow; poll] ++ List.concat (List.repeat [poll; EvNow; EvSleep 1] n) /\
     nreq (snd run) = S n /\ nsleep (snd run) = n /\
     (n = 0%nat \/ exists r, responses w n = inl r)) \/
    (trace (snd run) =
     [EvNow; poll] ++ List.concat (List.repeat [poll; EvNow; EvSleep 1] n) ++
     [poll] /\
     nreq (snd run) = S (S n) /\ nsleep (snd run) = n /\
     exists e, responses w (S n) = inr e /\ fst run = Raised e).
Proof.
  cbv zeta. rewrite run_unfold.
  destruct (responses w 0%nat) as [r0|e] eqn:Hr0.
  - destruct (wait_loop_trace_shape w self token timeout fuel t0 r0 0
                (loop_state w self token t0 0) 0 eq_refl eq_refl eq_refl
                ltac:(exists r0; exact Hr0))
      as [n [(Htr & Hn & Hsl & Hans) | (Htr & Hn & Hsl & Hexn)]].
    + exists n. left. rewrite Htr, loop_trace_blocks. auto.
    + exists n. right. rewrite Htr, loop_trace_blocks, <- app_assoc. auto.
  - exists 0%nat. left. cbn [snd loop_state trace nreq nsleep loop_trace].
    auto.
Qed.
